(** * DS18B20 temperature display for the LILYGO T-Display-S3

    A shallow embedding of [src/main.cpp]: the global variables become a
    record, the calls into the TFT_eSPI and DallasTemperature drivers become
    a log of calls, and [setup] and [loop] become computations in a small
    state-and-log monad.  The clock value and the value the sensor driver
    returns are inputs of a tick. *)

From Stdlib Require Import ZArith List Sorted String Ascii DecimalString Bool Lia.
From Stdlib Require Import QArith Qabs.
From Stdlib Require Import Floats.SpecFloat.
Import ListNotations.
Local Open Scope Z_scope.

(** ** [unsigned long]: 32 bits on the ESP32-S3 *)

Module UL.
Definition width : Z := 32.
Definition modulus : Z := 2 ^ width.

Definition wrap (z : Z) : Z := z mod modulus.

(** Unsigned subtraction, modulo [2^32]. *)
Definition sub (a b : Z) : Z := wrap (a - b).

(** The usual arithmetic conversion of an [int] operand that meets an
    [unsigned long] one. *)
Definition of_int (i : Z) : Z := wrap i.

Definition geb (a b : Z) : bool := b <=? a.
End UL.

(** ** [float]: IEEE 754 binary32, [double]: binary64 *)

Module F32.
Definition prec : Z := 24.
Definition emax : Z := 128.

Definition t : Type := spec_float.

(** The float nearest to [m * 2^e]. *)
Definition ldexp (m e : Z) : t := binary_normalize prec emax m e false.
Definition of_Z (z : Z) : t := ldexp z 0.

Definition zero : t := S754_zero false.

Definition add : t -> t -> t := SFadd prec emax.
Definition sub : t -> t -> t := SFsub prec emax.
Definition mul : t -> t -> t := SFmul prec emax.
Definition div : t -> t -> t := SFdiv prec emax.
Definition abs : t -> t := SFabs.

(** [a != b]: true on unordered operands. *)
Definition neb (a b : t) : bool := negb (SFeqb a b).

Definition is_finite (x : t) : bool :=
  match x with
  | S754_zero _ | S754_finite _ _ _ => true
  | _ => false
  end.

(** The rational a finite float denotes ([0] is returned for the
    infinities and NaN, which [is_finite] excludes). *)
Definition value (x : t) : Q :=
  match x with
  | S754_finite s m e =>
      let n := if s then Z.neg m else Z.pos m in
      match e with
      | Z.neg k => Qmake n (2 ^ k)%positive
      | _ => inject_Z (n * 2 ^ e)
      end
  | _ => 0%Q
  end.
End F32.

Module F64.
Definition prec : Z := 53.
Definition emax : Z := 1024.
Definition of_Z (z : Z) : spec_float := binary_normalize prec emax z 0 false.

(** The promotion of a [float] to [double], which is exact. *)
Definition of_float (x : F32.t) : spec_float :=
  match x with
  | S754_finite s m e =>
      binary_normalize prec emax (if s then Z.neg m else Z.pos m) e false
  | _ => x
  end.

(** [a >= b]: false on unordered operands. *)
Definition geb (a b : spec_float) : bool :=
  match SFcompare a b with
  | Some Gt | Some Eq => true
  | _ => false
  end.

(** The [double] literal [0.1]: the binary64 number nearest to 1/10. *)
Definition lit_0_1 : spec_float := SFdiv prec emax (of_Z 1) (of_Z 10).
End F64.

Definition float : Type := F32.t.

(** ** Calls into the display and sensor drivers *)

Inductive Color : Type := TFT_BLACK | TFT_WHITE.

Inductive Call : Type :=
| tft_init
| tft_setRotation (r : Z)
| tft_fillScreen (c : Color)
| tft_setTextFont (f : Z)
| tft_setTextColor (fg bg : Color)
| tft_setCursor (x y : Z)
| tft_println (s : string)
| tft_print (s : string)
| delay (ms : Z)
| sensors_begin
| sensors_setResolution (bits : Z)
| sensors_requestTemperatures
| sensors_getTempCByIndex (i : Z).

Definition nl : string := String (ascii_of_nat 10) EmptyString.

(** ** State machine states and global variables *)

Inductive State : Type := READ_SENSOR | WAIT | UPDATE_DISPLAY.

Definition State_eqb (a b : State) : bool :=
  match a, b with
  | READ_SENSOR, READ_SENSOR | WAIT, WAIT | UPDATE_DISPLAY, UPDATE_DISPLAY => true
  | _, _ => false
  end.

Record Globals : Type := mkGlobals {
  currentState : State;
  previousMillis : Z;
  temperatureC : float;
  temperatureF : float;
  previousTemperatureC : float;
  valueChanged : bool;
  sensorConnected : bool;
  firstRun : bool
}.

Definition sensorDelayInterval : Z := 750.
Definition sensorReadInterval : Z := 2000.

Definition CELSIUS_Y : Z := 85.
Definition FAHRENHEIT_Y : Z := 133.
Definition ERROR_Y : Z := 85.

(** The initializers of the global variables. *)
Definition initial : Globals :=
  {| currentState := READ_SENSOR;
     previousMillis := 0;
     temperatureC := F32.zero;
     temperatureF := F32.zero;
     previousTemperatureC := F32.zero;
     valueChanged := false;
     sensorConnected := true;
     firstRun := true |}.

(** ** The monad: global variables threaded, driver calls logged *)

Definition M (A : Type) : Type := Globals -> A * Globals * list Call.

Definition ret {A : Type} (a : A) : M A := fun g => (a, g, []).

Definition bind {A B : Type} (m : M A) (k : A -> M B) : M B :=
  fun g =>
    let '(a, g1, o1) := m g in
    let '(b, g2, o2) := k a g1 in
    (b, g2, o1 ++ o2).

Definition gets {A : Type} (f : Globals -> A) : M A := fun g => (f g, g, []).
Definition modify (f : Globals -> Globals) : M unit := fun g => (tt, f g, []).
Definition call (c : Call) : M unit := fun g => (tt, g, [c]).

Definition when (b : bool) (m : M unit) : M unit := if b then m else ret tt.

Declare Scope m_scope.
Delimit Scope m_scope with m.
Notation "x <- c ;; k" := (bind c (fun x => k))
  (at level 61, c at next level, right associativity) : m_scope.
Notation "c ;; k" := (bind c (fun _ => k))
  (at level 61, right associativity) : m_scope.
Local Open Scope m_scope.

(** The globals after a computation, and the calls it made. *)
Definition globals_of {A : Type} (r : A * Globals * list Call) : Globals := snd (fst r).
Definition calls_of {A : Type} (r : A * Globals * list Call) : list Call := snd r.

(** Assignments to the globals the program writes. *)
Definition set_currentState (v : State) : M unit :=
  modify (fun g => mkGlobals v (previousMillis g) (temperatureC g) (temperatureF g)
    (previousTemperatureC g) (valueChanged g) (sensorConnected g) (firstRun g)).
Definition set_previousMillis (v : Z) : M unit :=
  modify (fun g => mkGlobals (currentState g) v (temperatureC g) (temperatureF g)
    (previousTemperatureC g) (valueChanged g) (sensorConnected g) (firstRun g)).
Definition set_temperatureC (v : float) : M unit :=
  modify (fun g => mkGlobals (currentState g) (previousMillis g) v (temperatureF g)
    (previousTemperatureC g) (valueChanged g) (sensorConnected g) (firstRun g)).
Definition set_temperatureF (v : float) : M unit :=
  modify (fun g => mkGlobals (currentState g) (previousMillis g) (temperatureC g) v
    (previousTemperatureC g) (valueChanged g) (sensorConnected g) (firstRun g)).
Definition set_previousTemperatureC (v : float) : M unit :=
  modify (fun g => mkGlobals (currentState g) (previousMillis g) (temperatureC g)
    (temperatureF g) v (valueChanged g) (sensorConnected g) (firstRun g)).
Definition set_valueChanged (v : bool) : M unit :=
  modify (fun g => mkGlobals (currentState g) (previousMillis g) (temperatureC g)
    (temperatureF g) (previousTemperatureC g) v (sensorConnected g) (firstRun g)).
Definition set_sensorConnected (v : bool) : M unit :=
  modify (fun g => mkGlobals (currentState g) (previousMillis g) (temperatureC g)
    (temperatureF g) (previousTemperatureC g) (valueChanged g) v (firstRun g)).
Definition set_firstRun (v : bool) : M unit :=
  modify (fun g => mkGlobals (currentState g) (previousMillis g) (temperatureC g)
    (temperatureF g) (previousTemperatureC g) (valueChanged g) (sensorConnected g) v).

(** [millis()]: the milliseconds since boot, as an [unsigned long]. *)
Definition millis (now : Z) : Z := UL.wrap now.

(** ** Executions: a sequence of passes of [loop] *)

(** What one pass of [loop] is given: the time since boot and the value the
    sensor driver would return. *)
Record Tick : Type := mkTick { tick_now : Z; tick_reading : float }.

(** What one pass did: the globals before, the calls made, the globals after. *)
Record Entry : Type := mkEntry {
  e_now : Z;
  e_before : Globals;
  e_calls : list Call;
  e_after : Globals
}.

Definition is_request (c : Call) : bool :=
  match c with sensors_requestTemperatures => true | _ => false end.
Definition is_read (c : Call) : bool :=
  match c with sensors_getTempCByIndex _ => true | _ => false end.
Definition is_fillScreen (c : Call) : bool :=
  match c with tft_fillScreen _ => true | _ => false end.
Definition is_print (c : Call) : bool :=
  match c with tft_print _ => true | _ => false end.
Definition is_error_text (c : Call) : bool :=
  match c with
  | tft_println s => String.eqb s (nl ++ "!! Sensor Not Connected !!")
  | _ => false
  end.

Definition count (p : Call -> bool) (calls : list Call) : nat :=
  List.length (filter p calls).

(** Full redraws of the static layout start by clearing the screen; the
    value rows are the only text written with [print]. *)
Definition full_redraws : list Call -> nat := count is_fillScreen.
Definition error_draws : list Call -> nat := count is_error_text.
Definition value_row_draws : list Call -> nat := count is_print.

Definition is_label (c : Call) : bool :=
  match c with
  | tft_println s => String.eqb s (nl ++ "Temp in Celcius:")
  | _ => false
  end.

Definition is_fahrenheit_label (c : Call) : bool :=
  match c with
  | tft_println s => String.eqb s (nl ++ nl ++ "Temp in Fahrenheit:")
  | _ => false
  end.

(** The calls into the display driver. *)
Definition is_tft (c : Call) : bool :=
  match c with
  | tft_init | tft_setRotation _ | tft_fillScreen _ | tft_setTextFont _
  | tft_setTextColor _ _ | tft_setCursor _ _ | tft_println _ | tft_print _ => true
  | _ => false
  end.

(** The calls made after the latest [fillScreen] (all of them when there is
    none): what was written since the screen was last cleared. *)
Fixpoint since_clear (calls : list Call) : list Call :=
  match calls with
  | [] => []
  | c :: rest =>
      if existsb is_fillScreen rest then since_clear rest
      else if is_fillScreen c then rest else c :: rest
  end.

(** The time of the latest pass so far that issued a conversion request. *)
Definition last_request (done : list Entry) : option Z :=
  fold_left
    (fun acc e => if existsb is_request (e_calls e) then Some (e_now e) else acc)
    done None.

(** The clock never runs backwards. *)
Definition monotonic (ticks : list Tick) : Prop :=
  StronglySorted Z.le (map tick_now ticks).

(** The phases allowed after a pass that started in phase [a]. *)
Definition successor (a b : State) : bool :=
  match a, b with
  | READ_SENSOR, WAIT
  | WAIT, WAIT | WAIT, UPDATE_DISPLAY
  | UPDATE_DISPLAY, UPDATE_DISPLAY | UPDATE_DISPLAY, READ_SENSOR => true
  | _, _ => false
  end.

Fixpoint chain (a : State) (l : list State) : Prop :=
  match l with
  | [] => True
  | b :: l' => successor a b = true /\ chain b l'
  end.

(** The conversion as the specification words it, over the rationals:
    [celsius * 9/5 + 32]. *)
Definition spec_fahrenheit (celsius : Q) : Q := (celsius * (9 # 5) + 32)%Q.



(** ** The drivers' parts that the program uses, for concrete runs *)

Module Drivers.

(** Modelled from the spec: [DallasTemperature::toFahrenheit] belongs to the
    sensor driver, which is not among the sources; the spec gives
    [F = C * 9/5 + 32], evaluated here in single precision from left to
    right. *)
Definition toFahrenheit (celsius : float) : float :=
  F32.add (F32.div (F32.mul celsius (F32.of_Z 9)) (F32.of_Z 5)) (F32.of_Z 32).

(** Modelled from the spec: the reserved float with which the sensor driver
    (not among the sources) reports a disconnected sensor.  The theorems
    hold for any such value; the concrete runs use -127, the value that
    DallasTemperature.h gives to [DEVICE_DISCONNECTED_C]. *)
Definition DEVICE_DISCONNECTED_C : float := F32.of_Z (-127).

Definition two_digits (n : Z) : string :=
  (if n <? 10 then "0" else "") ++ NilZero.string_of_uint (N.to_uint (Z.to_N n)).

(** Modelled from the spec: Arduino's [String(float)], not among the
    sources, which turns a value into the text of a row.  The theorems hold
    for any rendering; the concrete runs write two decimal places, the value
    rounded to hundredths with halves away from zero. *)
Definition String_ (x : float) : string :=
  match x with
  | S754_zero _ => "0.00"
  | S754_infinity _ => "inf"
  | S754_nan => "nan"
  | S754_finite s m e =>
      let h := match e with
               | Z.neg k => (200 * Z.pos m + 2 ^ Z.pos k) / (2 * 2 ^ Z.pos k)
               | _ => 100 * Z.pos m * 2 ^ e
               end in
      (if s then "-" else "")
      ++ NilZero.string_of_uint (N.to_uint (Z.to_N (h / 100)))
      ++ "." ++ two_digits (h mod 100)
  end.

End Drivers.

(** ** Data of concrete runs *)

Module Example.

Definition c_22 : float := F32.of_Z 22.
Definition c_0_0625 : float := F32.ldexp 1 (-4).
Definition c_0_125 : float := F32.ldexp 1 (-3).

(** One poll cycle with the sensor at 22.0 degrees. *)
Definition first_cycle : list Tick :=
  [ mkTick 0 c_22; mkTick 700 c_22; mkTick 750 c_22; mkTick 760 c_22;
    mkTick 1999 c_22; mkTick 2000 c_22 ].

(** Two poll cycles, the sensor at 0.0625 and then at 0.125 degrees. *)
Definition drift : list Tick :=
  [ mkTick 0 c_0_0625; mkTick 750 c_0_0625; mkTick 760 c_0_0625;
    mkTick 2000 c_0_125; mkTick 2001 c_0_125; mkTick 2751 c_0_125;
    mkTick 2760 c_0_125 ].

(** A cycle in which the sensor does not answer, then one in which it
    answers 22.0 degrees. *)
Definition unplugged : list Tick :=
  [ mkTick 0 Drivers.DEVICE_DISCONNECTED_C; mkTick 700 Drivers.DEVICE_DISCONNECTED_C;
    mkTick 750 Drivers.DEVICE_DISCONNECTED_C; mkTick 760 Drivers.DEVICE_DISCONNECTED_C;
    mkTick 2000 c_22; mkTick 2001 c_22; mkTick 2751 c_22; mkTick 2752 c_22 ].

(** 21.95 and 22.04 degrees, rounded to single precision. *)
Definition c_21_95 : float := F32.div (F32.of_Z 2195) (F32.of_Z 100).
Definition c_22_04 : float := F32.div (F32.of_Z 2204) (F32.of_Z 100).

(** Three poll cycles, the sensor at 21.95, 22.04 and 21.95 degrees. *)
Definition oscillation : list Tick :=
  [ mkTick 0 c_21_95; mkTick 750 c_21_95; mkTick 760 c_21_95; mkTick 2000 c_22_04;
    mkTick 2001 c_22_04; mkTick 2751 c_22_04; mkTick 2760 c_22_04; mkTick 4001 c_21_95;
    mkTick 4002 c_21_95; mkTick 4752 c_21_95; mkTick 4760 c_21_95 ].

(** A wait during which [millis()] rolls over: the request is issued 296 ms
    before 2^32 ms. *)
Definition rollover : list Tick :=
  [ mkTick 4294967000 c_22; mkTick 4294967500 c_22; mkTick 4294967800 c_22;
    mkTick 4294967900 c_22 ].

(** The sensor does not answer, cycle after cycle. *)
Definition still_unplugged : list Tick :=
  [ mkTick 760 Drivers.DEVICE_DISCONNECTED_C; mkTick 2000 Drivers.DEVICE_DISCONNECTED_C;
    mkTick 2001 Drivers.DEVICE_DISCONNECTED_C; mkTick 2751 Drivers.DEVICE_DISCONNECTED_C;
    mkTick 2760 Drivers.DEVICE_DISCONNECTED_C ].

(** Floats off the sensor's grid: 1.0, -3 * 2^-29 and the float just below
    the single-precision 0.1. *)
Definition c_1 : float := F32.of_Z 1.
Definition c_tiny : float := F32.ldexp (-3) (-29).
Definition c_below_tenth : float := F32.ldexp 13421772 (-27).

(** Three poll cycles in which the driver returns these three values. *)
Definition exotic : list Tick :=
  [ mkTick 0 c_1; mkTick 750 c_1; mkTick 760 c_1; mkTick 2000 c_1;
    mkTick 2001 c_tiny; mkTick 2751 c_tiny; mkTick 2760 c_tiny; mkTick 4001 c_tiny;
    mkTick 4002 c_below_tenth; mkTick 4752 c_below_tenth; mkTick 4760 c_below_tenth ].

(** A waiting state whose request was issued at time 0. *)
Definition waiting : Globals :=
  {| currentState := WAIT; previousMillis := 0;
     temperatureC := F32.zero; temperatureF := F32.zero;
     previousTemperatureC := F32.zero; valueChanged := false;
     sensorConnected := true; firstRun := false |}.

Definition no_entry : Entry := mkEntry 0 initial [] initial.

End Example.

(** ** The program, over the parts of the drivers it uses *)

Section Program.

(** [DallasTemperature::toFahrenheit], the sentinel
    [DEVICE_DISCONNECTED_C] of the sensor driver and Arduino's
    [String(float)] are not part of the sources. *)
Variable toFahrenheit : float -> float.
Variable DEVICE_DISCONNECTED_C : float.
Variable String_ : float -> string.

Definition drawStaticScreen : M unit :=
  call (tft_fillScreen TFT_BLACK) ;;
  call (tft_setCursor 0 0) ;;
  call (tft_setTextColor TFT_WHITE TFT_BLACK) ;;
  call (tft_println "---------------------------") ;;
  call (tft_println " DS18B20 Sensor Module") ;;
  call (tft_println "---------------------------") ;;
  connected <- gets sensorConnected ;;
  when connected (
    call (tft_println (nl ++ "Temp in Celcius:")) ;;
    call (tft_println (nl ++ nl ++ "Temp in Fahrenheit:"))).

Definition updateTemperatureValues : M unit :=
  connected <- gets sensorConnected ;;
  when connected (
    call (tft_setTextColor TFT_WHITE TFT_BLACK) ;;
    call (tft_setCursor 0 CELSIUS_Y) ;;
    tC <- gets temperatureC ;;
    call (tft_print (String_ tC ++ " C    ")) ;;
    call (tft_setCursor 0 FAHRENHEIT_Y) ;;
    tF <- gets temperatureF ;;
    call (tft_print (String_ tF ++ " F    "))).

Definition showSensorError : M unit :=
  call (tft_setTextColor TFT_WHITE TFT_BLACK) ;;
  call (tft_setCursor 0 ERROR_Y) ;;
  call (tft_println (nl ++ "!! Sensor Not Connected !!")).

Definition setup : M unit :=
  call tft_init ;;
  call (tft_setRotation 0) ;;
  call (tft_fillScreen TFT_BLACK) ;;
  call (tft_setTextFont 2) ;;
  call (tft_setTextColor TFT_WHITE TFT_BLACK) ;;
  call (tft_println ("Initialising..." ++ nl)) ;;
  call (delay 1000) ;;
  call sensors_begin ;;
  call (sensors_setResolution 12) ;;
  drawStaticScreen ;;
  set_firstRun false.

(** [abs(temperatureC - previousTemperatureC) >= 0.1]: the difference is
    taken in single precision, promoted and compared with the [double] 0.1. *)
Definition changed (tC prevC : float) : bool :=
  F64.geb (F64.of_float (F32.abs (F32.sub tC prevC))) F64.lit_0_1.

(** One pass of [loop()].  [now] is the time since boot in milliseconds
    and [reading] is what [sensors.getTempCByIndex(0)] returns if this
    pass asks for it. *)
Definition loop (now : Z) (reading : float) : M unit :=
  let currentMillis := millis now in
  st <- gets currentState ;;
  match st with
  | READ_SENSOR =>
      call sensors_requestTemperatures ;;
      set_currentState WAIT ;;
      set_previousMillis currentMillis
  | WAIT =>
      prev <- gets previousMillis ;;
      when (UL.geb (UL.sub currentMillis prev) (UL.of_int sensorDelayInterval)) (
        call (sensors_getTempCByIndex 0) ;;
        set_temperatureC reading ;;
        tC <- gets temperatureC ;;
        set_temperatureF (toFahrenheit tC) ;;
        tC <- gets temperatureC ;;
        let currentConnectionState := F32.neb tC DEVICE_DISCONNECTED_C in
        connected <- gets sensorConnected ;;
        when (negb (Bool.eqb currentConnectionState connected)) (
          set_sensorConnected currentConnectionState ;;
          drawStaticScreen ;;
          connected <- gets sensorConnected ;;
          when (negb connected) showSensorError) ;;
        connected <- gets sensorConnected ;;
        tC <- gets temperatureC ;;
        prevC <- gets previousTemperatureC ;;
        when (connected && changed tC prevC) (
          set_valueChanged true ;;
          tC <- gets temperatureC ;;
          set_previousTemperatureC tC) ;;
        set_currentState UPDATE_DISPLAY)
  | UPDATE_DISPLAY =>
      vc <- gets valueChanged ;;
      connected <- gets sensorConnected ;;
      when (vc && connected) (
        updateTemperatureValues ;;
        set_valueChanged false) ;;
      prev <- gets previousMillis ;;
      when (UL.geb (UL.sub currentMillis prev) (UL.of_int sensorReadInterval)) (
        set_currentState READ_SENSOR)
  end.

(** The globals when [loop] is first called. *)
Definition boot : Globals := globals_of (setup initial).

Definition step (tk : Tick) (g : Globals) : unit * Globals * list Call :=
  loop (tick_now tk) (tick_reading tk) g.

Fixpoint run (ticks : list Tick) (g : Globals) : Globals :=
  match ticks with
  | [] => g
  | tk :: rest => run rest (globals_of (step tk g))
  end.

Fixpoint log (ticks : list Tick) (g : Globals) : list Entry :=
  match ticks with
  | [] => []
  | tk :: rest =>
      let r := step tk g in
      mkEntry (tick_now tk) g (calls_of r) (globals_of r) :: log rest (globals_of r)
  end.

(** The phase after each pass. *)
Definition phases (ticks : list Tick) (g : Globals) : list State :=
  map (fun e => currentState (e_after e)) (log ticks g).

Inductive reachable : Globals -> Prop :=
| reachable_boot : reachable boot
| reachable_step (tk : Tick) (g : Globals) :
    reachable g -> reachable (globals_of (step tk g)).

(** The wait for the conversion is over at [now]. *)
Definition converted (now : Z) (g : Globals) : bool :=
  UL.geb (UL.sub (millis now) (previousMillis g)) (UL.of_int sensorDelayInterval).

(** The poll period is over at [now]. *)
Definition period_over (now : Z) (g : Globals) : bool :=
  UL.geb (UL.sub (millis now) (previousMillis g)) (UL.of_int sensorReadInterval).

(** [temperatureC != DEVICE_DISCONNECTED_C] *)
Definition valid (reading : float) : bool := F32.neb reading DEVICE_DISCONNECTED_C.

(** The calls of a full redraw of the static layout, of the error row and
    of the two value rows, as [drawStaticScreen], [showSensorError] and
    [updateTemperatureValues] make them (see [drawStaticScreen_calls],
    [showSensorError_calls], [updateTemperatureValues_calls]). *)
Definition static_layout (connected : bool) : list Call :=
  [ tft_fillScreen TFT_BLACK; tft_setCursor 0 0; tft_setTextColor TFT_WHITE TFT_BLACK;
    tft_println "---------------------------";
    tft_println " DS18B20 Sensor Module";
    tft_println "---------------------------" ]
  ++ (if connected
      then [ tft_println (nl ++ "Temp in Celcius:");
             tft_println (nl ++ nl ++ "Temp in Fahrenheit:") ]
      else []).

Definition error_row : list Call :=
  [ tft_setTextColor TFT_WHITE TFT_BLACK; tft_setCursor 0 ERROR_Y;
    tft_println (nl ++ "!! Sensor Not Connected !!") ].

Definition value_rows (tC tF : float) : list Call :=
  [ tft_setTextColor TFT_WHITE TFT_BLACK;
    tft_setCursor 0 CELSIUS_Y; tft_print (String_ tC ++ " C    ");
    tft_setCursor 0 FAHRENHEIT_Y; tft_print (String_ tF ++ " F    ") ].

(** The globals after the pass that reads the sensor. *)
Definition after_read (reading : float) (g : Globals) : Globals :=
  let redraw := valid reading && changed reading (previousTemperatureC g) in
  {| currentState := UPDATE_DISPLAY;
     previousMillis := previousMillis g;
     temperatureC := reading;
     temperatureF := toFahrenheit reading;
     previousTemperatureC := if redraw then reading else previousTemperatureC g;
     valueChanged := if redraw then true else valueChanged g;
     sensorConnected := valid reading;
     firstRun := firstRun g |}.

(** No value-row draw is pending outside [UPDATE_DISPLAY], and none is
    pending while the sensor is disconnected. *)
Definition settled (g : Globals) : Prop :=
  valueChanged g = true ->
  currentState g = UPDATE_DISPLAY /\ sensorConnected g = true
  /\ previousTemperatureC g = temperatureC g.

(** Where the globals stand with respect to the latest request: during the
    wait and the display phase [previousMillis] is the clock value of the
    request, and the display phase is entered only by a pass made at least
    [sensorDelayInterval] after it. *)
Definition anchored (done : list Entry) (g : Globals) : Prop :=
  match currentState g with
  | READ_SENSOR => True
  | WAIT =>
      exists t0, last_request done = Some t0 /\ previousMillis g = millis t0
  | UPDATE_DISPLAY =>
      exists t0 t1, last_request done = Some t0 /\ previousMillis g = millis t0
                    /\ In t1 (map e_now done) /\ t0 + sensorDelayInterval <= t1
  end.

(** A pass that reads the sensor and finds its validity different from
    [sensorConnected]. *)
Definition connectivity_change (now : Z) (reading : float) (g : Globals) : bool :=
  State_eqb (currentState g) WAIT && converted now g
  && negb (Bool.eqb (valid reading) (sensorConnected g)).

(** All passes of an execution start in the display phase. *)
Definition stays_in_display (entries : list Entry) : Prop :=
  Forall (fun e => currentState (e_before e) = UPDATE_DISPLAY) entries.

(** No pass of an execution calls a driver. *)
Definition silent (entries : list Entry) : Prop :=
  Forall (fun e => e_calls e = []) entries.

(** No reading has been taken yet: the variables hold their initializers. *)
Definition fresh (g : Globals) : Prop :=
  temperatureC g = F32.zero /\ temperatureF g = F32.zero
  /\ previousTemperatureC g = F32.zero
  /\ valueChanged g = false /\ sensorConnected g = true.

(** [temperatureF] and [sensorConnected] are those of the reading that
    [temperatureC] holds. *)
Definition reflects_reading (g : Globals) : Prop :=
  temperatureF g = toFahrenheit (temperatureC g)
  /\ sensorConnected g = valid (temperatureC g).

(** All the calls of an execution: those of [setup], then those of the
    passes of [loop]. *)
Definition all_calls (ticks : list Tick) : list Call :=
  calls_of (setup initial) ++ List.concat (map e_calls (log ticks boot)).

(** * Properties *)

(** ** The helper functions *)

Lemma drawStaticScreen_calls (g : Globals) :
  drawStaticScreen g = (tt, g, static_layout (sensorConnected g)).
Proof. destruct g as [st pm tC tF pC vc [|] fr]; reflexivity. Qed.

Lemma showSensorError_calls (g : Globals) :
  showSensorError g = (tt, g, error_row).
Proof. reflexivity. Qed.

Lemma updateTemperatureValues_calls (g : Globals) :
  updateTemperatureValues g =
  (tt, g, if sensorConnected g then value_rows (temperatureC g) (temperatureF g) else []).
Proof. destruct g as [st pm tC tF pC vc [|] fr]; reflexivity. Qed.

(** ** One pass of [loop], phase by phase *)

Lemma loop_READ_SENSOR (now : Z) (reading : float) (g : Globals) :
  currentState g = READ_SENSOR ->
  loop now reading g =
  (tt,
   {| currentState := WAIT; previousMillis := millis now;
      temperatureC := temperatureC g; temperatureF := temperatureF g;
      previousTemperatureC := previousTemperatureC g;
      valueChanged := valueChanged g; sensorConnected := sensorConnected g;
      firstRun := firstRun g |},
   [sensors_requestTemperatures]).
Proof.
  destruct g as [st pm tC tF pC vc sc fr]; simpl; intros ->; reflexivity.
Qed.

Lemma loop_WAIT_early (now : Z) (reading : float) (g : Globals) :
  currentState g = WAIT -> converted now g = false ->
  loop now reading g = (tt, g, []).
Proof.
  destruct g as [st pm tC tF pC vc sc fr]; unfold converted; simpl.
  intros -> E. unfold loop, bind, gets; simpl. rewrite E. reflexivity.
Qed.

Lemma loop_WAIT_read (now : Z) (reading : float) (g : Globals) :
  currentState g = WAIT -> converted now g = true ->
  loop now reading g =
  (tt, after_read reading g,
   sensors_getTempCByIndex 0 ::
   (if Bool.eqb (valid reading) (sensorConnected g) then []
    else static_layout (valid reading)
         ++ (if valid reading then [] else error_row))).
Proof.
  destruct g as [st pm tC tF pC vc sc fr]; unfold converted, after_read, valid; simpl.
  intros -> E. unfold loop, bind, gets; simpl. rewrite E. simpl.
  destruct (F32.neb reading DEVICE_DISCONNECTED_C), sc; simpl;
    destruct (changed reading pC); reflexivity.
Qed.

Lemma loop_UPDATE_DISPLAY (now : Z) (reading : float) (g : Globals) :
  currentState g = UPDATE_DISPLAY ->
  loop now reading g =
  (tt,
   {| currentState := if period_over now g then READ_SENSOR else UPDATE_DISPLAY;
      previousMillis := previousMillis g;
      temperatureC := temperatureC g; temperatureF := temperatureF g;
      previousTemperatureC := previousTemperatureC g;
      valueChanged := if valueChanged g && sensorConnected g then false else valueChanged g;
      sensorConnected := sensorConnected g;
      firstRun := firstRun g |},
   if valueChanged g && sensorConnected g
   then value_rows (temperatureC g) (temperatureF g) else []).
Proof.
  destruct g as [st pm tC tF pC vc sc fr]; unfold period_over; simpl.
  intros ->. unfold loop, bind, gets; simpl.
  destruct vc, sc; simpl;
    destruct (UL.geb (UL.sub (millis now) pm) (UL.of_int sensorReadInterval));
    reflexivity.
Qed.

(** ** The phase after a pass *)

Lemma loop_successor (now : Z) (reading : float) (g : Globals) :
  successor (currentState g) (currentState (globals_of (loop now reading g))) = true.
Proof.
  destruct (currentState g) eqn:E.
  - rewrite loop_READ_SENSOR by assumption. reflexivity.
  - destruct (converted now g) eqn:C.
    + rewrite loop_WAIT_read by assumption. reflexivity.
    + rewrite loop_WAIT_early by assumption. unfold globals_of; simpl.
      rewrite E. reflexivity.
  - rewrite loop_UPDATE_DISPLAY by assumption. unfold globals_of; simpl.
    destruct (period_over now g); reflexivity.
Qed.

(** C1: for every sequence of passes, from any globals, each pass leads from
    the phase it started in to an allowed successor: [READ_SENSOR] to
    [WAIT], [WAIT] to [WAIT] or [UPDATE_DISPLAY], [UPDATE_DISPLAY] to
    [UPDATE_DISPLAY] or [READ_SENSOR]; so [WAIT] is never skipped and a pass
    moves along at most one edge. *)
Theorem phase_order (ticks : list Tick) (g : Globals) :
  chain (currentState g) (phases ticks g).
Proof.
  revert g. induction ticks as [|tk rest IH]; intros g; simpl.
  - exact I.
  - split.
    + apply loop_successor.
    + apply IH.
Qed.

(** ** The clock *)

Lemma elapsed_wrap (now t0 : Z) :
  UL.sub (millis now) (millis t0) = (now - t0) mod UL.modulus.
Proof.
  unfold UL.sub, millis, UL.wrap. symmetry. apply Zminus_mod.
Qed.

Lemma elapsed_below (now t0 : Z) :
  t0 <= now -> UL.sub (millis now) (millis t0) <= now - t0.
Proof.
  intros H. rewrite elapsed_wrap. apply Z.mod_le; [lia | reflexivity].
Qed.

Lemma elapsed_exact (now t0 : Z) :
  t0 <= now -> now - t0 < UL.modulus ->
  UL.sub (millis now) (millis t0) = now - t0.
Proof.
  intros H1 H2. rewrite elapsed_wrap. apply Z.mod_small. lia.
Qed.

Lemma monotonic_split (pre : list Tick) (tk : Tick) (post : list Tick) :
  monotonic (pre ++ tk :: post) ->
  Forall (fun t => t <= tick_now tk) (map tick_now pre).
Proof.
  unfold monotonic. induction pre as [|a pre IH]; simpl; intros H.
  - constructor.
  - apply StronglySorted_inv in H. destruct H as [Hs Hf]. constructor.
    + rewrite map_app in Hf. apply Forall_app in Hf. destruct Hf as [_ Hf].
      simpl in Hf. apply Forall_inv in Hf. exact Hf.
    + apply IH. exact Hs.
Qed.

(** ** Executions *)

Lemma log_app (a b : list Tick) (g : Globals) :
  log (a ++ b) g = log a g ++ log b (run a g).
Proof.
  revert g. induction a as [|tk a IH]; intros g; simpl.
  - reflexivity.
  - rewrite IH. reflexivity.
Qed.

Lemma run_app (a b : list Tick) (g : Globals) :
  run (a ++ b) g = run b (run a g).
Proof.
  revert g. induction a as [|tk a IH]; intros g; simpl; [reflexivity | apply IH].
Qed.

Lemma log_times (ticks : list Tick) (g : Globals) :
  map e_now (log ticks g) = map tick_now ticks.
Proof.
  revert g. induction ticks as [|tk rest IH]; intros g; simpl.
  - reflexivity.
  - rewrite IH. reflexivity.
Qed.

(** An entry of the log is the pass of some tick, run after the ticks
    before it. *)
Lemma log_split (ticks : list Tick) (g : Globals)
      (done : list Entry) (e : Entry) (rest : list Entry) :
  log ticks g = done ++ e :: rest ->
  exists pre tk post,
    ticks = pre ++ tk :: post /\ done = log pre g /\
    e = mkEntry (tick_now tk) (run pre g)
          (calls_of (step tk (run pre g))) (globals_of (step tk (run pre g))).
Proof.
  revert g done. induction ticks as [|tk ticks IH]; intros g done H; simpl in H.
  - destruct done; discriminate.
  - destruct done as [|d done]; simpl in H.
    + injection H as He _. exists [], tk, ticks. repeat split. now rewrite <- He.
    + injection H as Hd H. apply IH in H.
      destruct H as (pre & tk' & post & -> & -> & ->).
      exists (tk :: pre), tk', post. simpl. rewrite Hd. repeat split.
Qed.

Lemma last_request_snoc (done : list Entry) (e : Entry) :
  last_request (done ++ [e]) =
  if existsb is_request (e_calls e) then Some (e_now e) else last_request done.
Proof. unfold last_request. rewrite fold_left_app. reflexivity. Qed.

Lemma last_request_In (done : list Entry) (t0 : Z) :
  last_request done = Some t0 -> In t0 (map e_now done).
Proof.
  induction done as [|e done IH] using rev_ind.
  - discriminate.
  - rewrite last_request_snoc, map_app, in_app_iff. simpl.
    destruct (existsb is_request (e_calls e)).
    + intros [= <-]. auto.
    + intros H. auto.
Qed.

Lemma no_request_read (v sc : bool) :
  existsb is_request
    (sensors_getTempCByIndex 0 ::
     (if Bool.eqb v sc then []
      else static_layout v ++ (if v then [] else error_row))) = false.
Proof. destruct v, sc; reflexivity. Qed.

Lemma no_request_update (b : bool) (tC tF : float) :
  existsb is_request (if b then value_rows tC tF else []) = false.
Proof. destruct b; reflexivity. Qed.

Lemma converted_elapsed (now t0 : Z) (g : Globals) :
  previousMillis g = millis t0 -> t0 <= now -> converted now g = true ->
  t0 + sensorDelayInterval <= now.
Proof.
  unfold converted, UL.geb. intros -> Hle H. apply Z.leb_le in H.
  pose proof (elapsed_below now t0 Hle).
  change (UL.of_int sensorDelayInterval) with sensorDelayInterval in H. lia.
Qed.

Lemma monotonic_prefix (a b : list Tick) : monotonic (a ++ b) -> monotonic a.
Proof.
  unfold monotonic. rewrite map_app.
  induction (map tick_now a) as [|x l IHl]; simpl; intros H.
  - constructor.
  - apply StronglySorted_inv in H. destruct H as [Hs Hf]. constructor.
    + apply IHl. exact Hs.
    + apply Forall_app in Hf. tauto.
Qed.

Lemma anchored_run (ticks : list Tick) :
  monotonic ticks -> anchored (log ticks boot) (run ticks boot).
Proof.
  induction ticks as [|tk ticks IH] using rev_ind; intros Hm.
  - exact I.
  - specialize (IH (monotonic_prefix _ _ Hm)).
    pose proof (monotonic_split ticks tk [] Hm) as Hle.
    rewrite Forall_forall in Hle.
    rewrite log_app, run_app. simpl. set (g := run ticks boot) in *.
    unfold anchored in *. unfold step.
    destruct (currentState g) eqn:E.
    + rewrite loop_READ_SENSOR by assumption. unfold globals_of, calls_of; simpl.
      exists (tick_now tk). rewrite last_request_snoc. simpl. auto.
    + destruct IH as (t0 & Hreq & Hprev).
      assert (Ht0 : t0 <= tick_now tk).
      { apply Hle. rewrite <- (log_times ticks boot). now apply last_request_In. }
      destruct (converted (tick_now tk) g) eqn:C.
      * rewrite loop_WAIT_read by assumption. unfold globals_of, calls_of.
        cbn [fst snd after_read currentState previousMillis].
        exists t0, (tick_now tk). rewrite last_request_snoc.
        cbn [e_calls e_now].
        rewrite no_request_read.
        repeat split; try assumption.
        -- rewrite map_app, in_app_iff. simpl. auto.
        -- eapply converted_elapsed; eassumption.
      * rewrite loop_WAIT_early by assumption. unfold globals_of, calls_of; simpl.
        rewrite E. exists t0. rewrite last_request_snoc. simpl. auto.
    + destruct IH as (t0 & t1 & Hreq & Hprev & Hin & Ht1).
      rewrite loop_UPDATE_DISPLAY by assumption. unfold globals_of, calls_of.
      cbn [fst snd currentState previousMillis].
      destruct (period_over (tick_now tk) g); [exact I|].
      exists t0, t1. rewrite last_request_snoc. cbn [e_calls e_now].
      rewrite no_request_update.
      repeat split; try assumption.
      rewrite map_app, in_app_iff. auto.
Qed.

(** A pass found in the log of a monotonic execution: the globals it starts
    from are anchored to the log before it, and no earlier pass was made at
    a later time. *)
Lemma entry_context (ticks : list Tick)
      (done : list Entry) (e : Entry) (rest : list Entry) :
  monotonic ticks -> log ticks boot = done ++ e :: rest ->
  exists reading,
    anchored done (e_before e)
    /\ (forall t, In t (map e_now done) -> t <= e_now e)
    /\ e_calls e = calls_of (loop (e_now e) reading (e_before e))
    /\ e_after e = globals_of (loop (e_now e) reading (e_before e)).
Proof.
  intros Hm Hlog. apply log_split in Hlog.
  destruct Hlog as (pre & tk & post & -> & -> & ->).
  exists (tick_reading tk). cbn [e_before e_now e_calls e_after]. repeat split.
  - apply anchored_run. exact (monotonic_prefix _ _ Hm).
  - rewrite log_times. rewrite <- Forall_forall.
    exact (monotonic_split _ _ _ Hm).
Qed.

(** C2: in every execution on a clock that never runs backwards, a pass that
    reads the sensor, or that enters or runs the display phase, is made at
    least [sensorDelayInterval] = 750 ms after the pass that issued the
    latest conversion request; and a pass in [WAIT] made earlier than that
    leaves the globals as they are and calls no driver. *)
Theorem conversion_wait (ticks : list Tick)
        (done : list Entry) (e : Entry) (rest : list Entry) :
  monotonic ticks ->
  log ticks boot = done ++ e :: rest ->
  (currentState (e_before e) = UPDATE_DISPLAY
   \/ currentState (e_after e) = UPDATE_DISPLAY
   \/ existsb is_read (e_calls e) = true ->
   exists t0, last_request done = Some t0 /\ t0 + 750 <= e_now e)
  /\
  (currentState (e_before e) = WAIT ->
   exists t0, last_request done = Some t0 /\ t0 <= e_now e
     /\ (e_now e < t0 + 750 -> e_after e = e_before e /\ e_calls e = [])).
Proof.
  intros Hm Hlog.
  destruct (entry_context _ _ _ _ Hm Hlog) as (reading & Hanch & Hle & Hc & Ha).
  rewrite Hc, Ha. clear Hc Ha. set (g := e_before e) in *. set (now := e_now e) in *.
  unfold anchored in Hanch. destruct (currentState g) eqn:E.
  - rewrite loop_READ_SENSOR by assumption. unfold globals_of, calls_of; simpl.
    split; [intros [H|[H|H]]|intros H]; discriminate.
  - destruct Hanch as (t0 & Hreq & Hprev).
    assert (Ht0 : t0 <= now) by (apply Hle; now apply last_request_In).
    destruct (converted now g) eqn:C.
    + pose proof (converted_elapsed _ _ _ Hprev Ht0 C) as Hel.
      unfold sensorDelayInterval in Hel.
      split; [intros _ | intros _]; exists t0; repeat split; try assumption; lia.
    + rewrite loop_WAIT_early by assumption. unfold globals_of, calls_of; simpl.
      split.
      * rewrite E. intros [H|[H|H]]; discriminate.
      * intros _. exists t0. auto.
  - destruct Hanch as (t0 & t1 & Hreq & Hprev & Hin & Ht1).
    split; [|intros H; discriminate].
    intros _. exists t0. split; [assumption|].
    specialize (Hle _ Hin). unfold sensorDelayInterval in Ht1. lia.
Qed.

(** C3: in every execution on a clock that never runs backwards, a pass in
    [UPDATE_DISPLAY] compares the clock with [previousMillis], which still is
    the clock value of the pass that issued the latest conversion request:
    the pass returns to [READ_SENSOR] exactly when the 32-bit difference of
    the two has reached [sensorReadInterval] = 2000 ms, that is (short of a
    wrap of the difference) exactly when 2000 ms have passed since the
    request. *)
Theorem poll_period_anchor (ticks : list Tick)
        (done : list Entry) (e : Entry) (rest : list Entry) :
  monotonic ticks ->
  log ticks boot = done ++ e :: rest ->
  currentState (e_before e) = UPDATE_DISPLAY ->
  exists t0,
    last_request done = Some t0 /\ t0 <= e_now e
    /\ previousMillis (e_before e) = millis t0
    /\ previousMillis (e_after e) = millis t0
    /\ (currentState (e_after e) = READ_SENSOR
        <-> 2000 <= (e_now e - t0) mod 2 ^ 32)
    /\ (e_now e - t0 < 2 ^ 32 ->
        (currentState (e_after e) = READ_SENSOR <-> t0 + 2000 <= e_now e)).
Proof.
  intros Hm Hlog E.
  destruct (entry_context _ _ _ _ Hm Hlog) as (reading & Hanch & Hle & _ & Ha).
  rewrite Ha. clear Ha. set (g := e_before e) in *. set (now := e_now e) in *.
  unfold anchored in Hanch. rewrite E in Hanch.
  destruct Hanch as (t0 & t1 & Hreq & Hprev & Hin & Ht1).
  assert (Ht0 : t0 <= now) by (apply Hle; now apply last_request_In).
  exists t0. rewrite loop_UPDATE_DISPLAY by assumption.
  unfold globals_of; cbn [fst snd currentState previousMillis].
  assert (Hiff : (if period_over now g then READ_SENSOR else UPDATE_DISPLAY) = READ_SENSOR
                 <-> 2000 <= (now - t0) mod 2 ^ 32).
  { unfold period_over, UL.geb. rewrite Hprev, elapsed_wrap.
    change (UL.of_int sensorReadInterval) with 2000.
    change UL.modulus with (2 ^ 32).
    destruct (2000 <=? (now - t0) mod 2 ^ 32) eqn:L.
    - apply Z.leb_le in L. tauto.
    - apply Z.leb_gt in L. split; [discriminate | lia]. }
  split; [assumption|]. split; [assumption|]. split; [assumption|].
  split; [assumption|]. split; [exact Hiff|].
  intros Hsmall. rewrite Hiff, Z.mod_small by lia. lia.
Qed.

(** ** Pending value-row draws *)

Lemma settled_boot : settled boot.
Proof. intros H. discriminate. Qed.

Lemma settled_step (tk : Tick) (g : Globals) :
  settled g -> settled (globals_of (step tk g)).
Proof.
  unfold settled, step. intros Hs.
  destruct (currentState g) eqn:E.
  - rewrite loop_READ_SENSOR by assumption. unfold globals_of; simpl.
    intros H. apply Hs in H. destruct H as [H _]. discriminate.
  - destruct (converted (tick_now tk) g) eqn:C.
    + rewrite loop_WAIT_read by assumption. unfold globals_of, after_read; simpl.
      destruct (valid (tick_reading tk)); simpl.
      * destruct (changed (tick_reading tk) (previousTemperatureC g)); [auto|].
        intros H. apply Hs in H. destruct H as [H _]. discriminate.
      * intros H. apply Hs in H. destruct H as [H _]. discriminate.
    + rewrite loop_WAIT_early by assumption. unfold globals_of; simpl.
      intros H. apply Hs in H. destruct H as [H _]. discriminate.
  - rewrite loop_UPDATE_DISPLAY by assumption. unfold globals_of; simpl.
    destruct (valueChanged g) eqn:V; simpl.
    + destruct (Hs eq_refl) as (_ & -> & _). discriminate.
    + discriminate.
Qed.

Lemma reachable_settled (g : Globals) : reachable g -> settled g.
Proof.
  induction 1 as [|tk g _ IH]; [apply settled_boot | now apply settled_step].
Qed.

Lemma reachable_WAIT_not_pending (g : Globals) :
  reachable g -> currentState g = WAIT -> valueChanged g = false.
Proof.
  intros Hr E. apply reachable_settled in Hr.
  destruct (valueChanged g) eqn:V; [|reflexivity].
  destruct (Hr V) as [H _]. rewrite E in H. discriminate.
Qed.

(** Once a pass in the display phase has run, the passes that follow it in
    that phase call no driver. *)
Lemma display_phase_silent (ticks : list Tick) (g : Globals) :
  valueChanged g && sensorConnected g = false ->
  stays_in_display (log ticks g) -> silent (log ticks g).
Proof.
  unfold stays_in_display, silent.
  revert g. induction ticks as [|tk ticks IH]; intros g Hq Hs; simpl in *.
  - constructor.
  - apply Forall_cons_iff in Hs. destruct Hs as [E Hs]. cbn [e_before] in E.
    unfold step in *. rewrite loop_UPDATE_DISPLAY in * by assumption.
    unfold globals_of, calls_of in *. cbn [fst snd] in *. rewrite Hq in *.
    constructor; [reflexivity|]. apply IH; [exact Hq | exact Hs].
Qed.

(** ** The display *)

(** *** The change test on the sensor's grid *)











(** C5: a pass that reads the sensor and finds a validity different from
    [sensorConnected] sets the flag to that validity and redraws the static
    layout once, followed by the error row exactly when the reading is
    invalid; every other pass leaves the flag as it is and draws neither the
    static layout nor the error row. *)
Theorem connectivity_redraw (g : Globals) (now : Z) (reading : float) :
  let r := loop now reading g in
  if connectivity_change now reading g
  then calls_of r =
         sensors_getTempCByIndex 0 ::
         static_layout (valid reading) ++ (if valid reading then [] else error_row)
       /\ full_redraws (calls_of r) = 1%nat
       /\ error_draws (calls_of r) = (if valid reading then 0%nat else 1%nat)
       /\ sensorConnected (globals_of r) = valid reading
       /\ sensorConnected (globals_of r) <> sensorConnected g
  else sensorConnected (globals_of r) = sensorConnected g
       /\ full_redraws (calls_of r) = 0%nat
       /\ error_draws (calls_of r) = 0%nat.
Proof.
  intros r. subst r. unfold connectivity_change.
  destruct (currentState g) eqn:E; cbn [State_eqb andb].
  - rewrite loop_READ_SENSOR by assumption. repeat split.
  - destruct (converted now g) eqn:C; cbn [andb].
    + rewrite loop_WAIT_read by assumption. unfold globals_of, calls_of; cbn [fst snd].
      unfold after_read; cbn [sensorConnected].
      destruct (valid reading), (sensorConnected g); cbn [Bool.eqb negb];
        repeat split; discriminate.
    + rewrite loop_WAIT_early by assumption. repeat split.
  - rewrite loop_UPDATE_DISPLAY by assumption. unfold globals_of, calls_of; cbn [fst snd].
    destruct (valueChanged g && sensorConnected g); repeat split.
Qed.

(** C6 (amended): once a pass in the display phase has run, the passes that
    follow it in that phase call no driver; and a valid reading for which
    [abs(reading - previousTemperatureC) >= 0.1] fails, the comparison being
    with the value last drawn and not with the reading before, leads to no
    value-row draw, neither in the pass that reads it nor in the display
    phase that follows. *)
Theorem presenter_idempotent (g : Globals) (now : Z) (reading : float)
        (ticks : list Tick) :
  let g' := globals_of (loop now reading g) in
  stays_in_display (log ticks g') ->
  (currentState g = UPDATE_DISPLAY -> silent (log ticks g'))
  /\
  (reachable g -> currentState g = WAIT -> converted now g = true ->
   valid reading = true -> changed reading (previousTemperatureC g) = false ->
   value_row_draws (calls_of (loop now reading g)) = 0%nat
   /\ silent (log ticks g')).
Proof.
  intros g' Hs. subst g'. split.
  - intros E. rewrite loop_UPDATE_DISPLAY in * by assumption.
    unfold globals_of in *. cbn [fst snd] in *.
    apply display_phase_silent; [|exact Hs]. cbn [valueChanged sensorConnected].
    destruct (valueChanged g), (sensorConnected g); reflexivity.
  - intros Hr E C V Hc.
    pose proof (reachable_WAIT_not_pending g Hr E) as Hvc.
    rewrite loop_WAIT_read in * by assumption.
    unfold globals_of, calls_of in *. cbn [fst snd] in *. split.
    + rewrite V. destruct (sensorConnected g); reflexivity.
    + apply display_phase_silent; [|exact Hs].
      unfold after_read. cbn [valueChanged sensorConnected].
      rewrite V, Hc, Hvc. reflexivity.
Qed.

(** C7 (amended): the static layout is drawn once by [setup], with the two
    labels, before the first pass of [loop], and [firstRun] is cleared there;
    no pass of [loop] depends on [firstRun]; and the pass that reads the
    sensor for the first time redraws the static layout only when the
    reading is invalid, that is when its validity differs from the initial
    [sensorConnected = true]. *)
Theorem static_layout_at_setup (t0 : Z) (r0 : float) (now : Z) (reading : float) :
  let g := globals_of (loop t0 r0 boot) in
  converted now g = true ->
  calls_of (setup initial) =
    [ tft_init; tft_setRotation 0; tft_fillScreen TFT_BLACK; tft_setTextFont 2;
      tft_setTextColor TFT_WHITE TFT_BLACK; tft_println ("Initialising..." ++ nl);
      delay 1000; sensors_begin; sensors_setResolution 12 ]
    ++ static_layout true
  /\ firstRun boot = false
  /\ (forall (b : bool) (t : Z) (x : float) (h : Globals),
        loop t x (globals_of (set_firstRun b h)) =
        (tt, globals_of (set_firstRun b (globals_of (loop t x h))),
         calls_of (loop t x h)))
  /\ currentState g = WAIT
  /\ calls_of (loop now reading g) =
       sensors_getTempCByIndex 0 ::
       (if valid reading then [] else static_layout false ++ error_row)
  /\ full_redraws (calls_of (loop now reading g)) =
       (if valid reading then 0%nat else 1%nat).
Proof.
  intros g C. subst g.
  split; [reflexivity|]. split; [reflexivity|]. split.
  - intros b t x h. destruct h as [st pm tC tF pC vc sc fr].
    unfold loop, bind, gets, globals_of, calls_of; destruct st; simpl.
    + reflexivity.
    + destruct (UL.geb (UL.sub (millis t) pm) (UL.of_int sensorDelayInterval));
        simpl; [|reflexivity].
      destruct (F32.neb x DEVICE_DISCONNECTED_C), sc; simpl;
        destruct (changed x pC); reflexivity.
    + destruct vc, sc; simpl;
        destruct (UL.geb (UL.sub (millis t) pm) (UL.of_int sensorReadInterval));
        reflexivity.
  - rewrite loop_READ_SENSOR in * by reflexivity.
    unfold globals_of in *. cbn [fst snd] in *.
    split; [reflexivity|].
    rewrite loop_WAIT_read by (reflexivity || assumption).
    unfold calls_of. cbn [fst snd sensorConnected boot].
    change (sensorConnected boot) with true.
    destruct (valid reading); split; reflexivity.
Qed.

(** C9: every pass that reads the sensor stores the value read in
    [temperatureC] and its [toFahrenheit] image in [temperatureF], whatever
    the validity of the reading, which decides [sensorConnected] only; so
    after the sentinel is read [temperatureF] holds the image of the
    sentinel. *)
Theorem fahrenheit_of_raw (g : Globals) (now : Z) (reading : float) :
  existsb is_read (calls_of (loop now reading g)) = true ->
  let g' := globals_of (loop now reading g) in
  temperatureC g' = reading
  /\ temperatureF g' = toFahrenheit reading
  /\ sensorConnected g' = valid reading
  /\ (reading = DEVICE_DISCONNECTED_C ->
      temperatureC g' = DEVICE_DISCONNECTED_C
      /\ temperatureF g' = toFahrenheit DEVICE_DISCONNECTED_C).
Proof.
  intros H g'. subst g'. destruct (currentState g) eqn:E.
  - rewrite loop_READ_SENSOR in H by assumption. discriminate.
  - destruct (converted now g) eqn:C.
    + rewrite loop_WAIT_read by assumption. unfold globals_of, after_read; simpl.
      split; [reflexivity|]. split; [reflexivity|]. split; [reflexivity|].
      intros ->. split; reflexivity.
    + rewrite loop_WAIT_early in H by assumption. discriminate.
  - rewrite loop_UPDATE_DISPLAY in H by assumption. unfold calls_of in H; simpl in H.
    destruct (valueChanged g && sensorConnected g); discriminate.
Qed.

(** C10: [previousTemperatureC] starts at 0.0 and is still 0.0 when [loop]
    first runs; a pass changes it only when the next pass draws the value
    rows, with the new reference value; and a valid reading for which
    [abs(reading - previousTemperatureC) >= 0.1] fails leaves it as it is
    and draws no value row, in the pass that reads it (which, after a
    disconnection, redraws the static layout with its labels and nothing
    else) and in the pass after it. *)
Theorem hysteresis_reference (g : Globals) (now : Z) (reading : float)
        (now' : Z) (reading' : float) :
  reachable g ->
  let r := loop now reading g in
  let g' := globals_of r in
  previousTemperatureC initial = F32.zero
  /\ previousTemperatureC boot = F32.zero
  /\ (previousTemperatureC g' <> previousTemperatureC g ->
      calls_of (loop now' reading' g') =
      value_rows (previousTemperatureC g') (temperatureF g'))
  /\ (currentState g = WAIT -> converted now g = true ->
      valid reading = true -> changed reading (previousTemperatureC g) = false ->
      calls_of r =
        sensors_getTempCByIndex 0 ::
        (if sensorConnected g then [] else static_layout true)
      /\ value_row_draws (calls_of r) = 0%nat
      /\ previousTemperatureC g' = previousTemperatureC g
      /\ calls_of (loop now' reading' g') = []).
Proof.
  intros Hr r g'. subst g' r.
  split; [reflexivity|]. split; [reflexivity|]. split.
  - destruct (currentState g) eqn:E.
    + rewrite loop_READ_SENSOR by assumption. unfold globals_of; simpl. tauto.
    + destruct (converted now g) eqn:C.
      * rewrite loop_WAIT_read by assumption.
        change (globals_of (tt, after_read reading g, ?c)) with (after_read reading g).
        rewrite (loop_UPDATE_DISPLAY now' reading' (after_read reading g)) by reflexivity.
        unfold calls_of, after_read; simpl.
        destruct (valid reading); simpl; [|tauto].
        destruct (changed reading (previousTemperatureC g)); simpl; tauto.
      * rewrite loop_WAIT_early by assumption. unfold globals_of; simpl. tauto.
    + rewrite loop_UPDATE_DISPLAY by assumption. unfold globals_of; simpl. tauto.
  - intros E C V Hc.
    pose proof (reachable_WAIT_not_pending g Hr E) as Hvc.
    rewrite loop_WAIT_read by assumption.
    change (globals_of (tt, after_read reading g, ?c)) with (after_read reading g).
    rewrite (loop_UPDATE_DISPLAY now' reading' (after_read reading g)) by reflexivity.
    unfold calls_of, after_read; simpl. rewrite V, Hc, Hvc. simpl.
    destruct (sensorConnected g); repeat split.
Qed.

(** * Further properties of executions *)

Lemma run_snoc (ticks : list Tick) (tk : Tick) (g : Globals) :
  run (ticks ++ [tk]) g = globals_of (step tk (run ticks g)).
Proof. rewrite run_app. reflexivity. Qed.

Lemma log_snoc (ticks : list Tick) (tk : Tick) (g : Globals) :
  log (ticks ++ [tk]) g =
  log ticks g ++
  [mkEntry (tick_now tk) (run ticks g)
     (calls_of (step tk (run ticks g))) (globals_of (step tk (run ticks g)))].
Proof. rewrite log_app. reflexivity. Qed.

Lemma reachable_run (ticks : list Tick) : reachable (run ticks boot).
Proof.
  induction ticks as [|tk ticks IH] using rev_ind.
  - apply reachable_boot.
  - rewrite run_snoc. apply reachable_step. exact IH.
Qed.

Lemma count_app (p : Call -> bool) (a b : list Call) :
  count p (a ++ b) = (count p a + count p b)%nat.
Proof. unfold count. rewrite filter_app, length_app. reflexivity. Qed.

(** The calls of all passes of an execution, after one more pass. *)
Lemma calls_snoc (ticks : list Tick) (tk : Tick) (g : Globals) :
  List.concat (map e_calls (log (ticks ++ [tk]) g)) =
  List.concat (map e_calls (log ticks g)) ++ calls_of (step tk (run ticks g)).
Proof.
  rewrite log_snoc, map_app, concat_app. cbn [map List.concat e_calls].
  rewrite app_nil_r. reflexivity.
Qed.

(** X1: in every execution on a clock that never runs backwards, a pass in
    [WAIT] reads the sensor and enters [UPDATE_DISPLAY] exactly when the
    32-bit difference between the clock and the clock value of the latest
    request has reached 750 ms; so, whether or not [millis()] rolled over in
    between, the first pass made 750 ms or more (and less than 2^32 ms)
    after the request ends the wait. *)
Theorem wait_deadline (ticks : list Tick)
        (done : list Entry) (e : Entry) (rest : list Entry) :
  monotonic ticks ->
  log ticks boot = done ++ e :: rest ->
  currentState (e_before e) = WAIT ->
  exists t0,
    last_request done = Some t0 /\ t0 <= e_now e
    /\ (existsb is_read (e_calls e) = true <-> 750 <= (e_now e - t0) mod 2 ^ 32)
    /\ (currentState (e_after e) = UPDATE_DISPLAY
        <-> 750 <= (e_now e - t0) mod 2 ^ 32)
    /\ (e_now e - t0 < 2 ^ 32 ->
        (currentState (e_after e) = UPDATE_DISPLAY <-> t0 + 750 <= e_now e)).
Proof.
  intros Hm Hlog E.
  destruct (entry_context _ _ _ _ Hm Hlog) as (reading & Hanch & Hle & Hc & Ha).
  rewrite Hc, Ha. clear Hc Ha. set (g := e_before e) in *. set (now := e_now e) in *.
  unfold anchored in Hanch. rewrite E in Hanch.
  destruct Hanch as (t0 & Hreq & Hprev).
  assert (Ht0 : t0 <= now) by (apply Hle; now apply last_request_In).
  exists t0. split; [assumption|]. split; [assumption|].
  assert (Hconv : converted now g = true <-> 750 <= (now - t0) mod 2 ^ 32).
  { unfold converted, UL.geb. rewrite Hprev, elapsed_wrap.
    change (UL.of_int sensorDelayInterval) with 750.
    change UL.modulus with (2 ^ 32). apply Z.leb_le. }
  assert (Hread : existsb is_read (calls_of (loop now reading g)) = true
                  <-> converted now g = true).
  { destruct (converted now g) eqn:C.
    - rewrite loop_WAIT_read by assumption. split; reflexivity.
    - rewrite loop_WAIT_early by assumption. split; discriminate. }
  assert (Hnext : currentState (globals_of (loop now reading g)) = UPDATE_DISPLAY
                  <-> converted now g = true).
  { destruct (converted now g) eqn:C.
    - rewrite loop_WAIT_read by assumption. split; reflexivity.
    - rewrite loop_WAIT_early by assumption. unfold globals_of; cbn [fst snd].
      rewrite E. split; discriminate. }
  split; [rewrite Hread; exact Hconv|]. split; [rewrite Hnext; exact Hconv|].
  intros Hsmall. rewrite Hnext, Hconv, Z.mod_small by lia. lia.
Qed.

Lemma request_in_READ_SENSOR (now : Z) (reading : float) (g : Globals) :
  existsb is_request (calls_of (loop now reading g)) = true ->
  currentState g = READ_SENSOR.
Proof.
  destruct (currentState g) eqn:E; [reflexivity| |]; intros H; exfalso; revert H.
  - destruct (converted now g) eqn:C.
    + rewrite loop_WAIT_read by assumption. unfold calls_of; cbn [fst snd].
      rewrite no_request_read. discriminate.
    + rewrite loop_WAIT_early by assumption. discriminate.
  - rewrite loop_UPDATE_DISPLAY by assumption. unfold calls_of; cbn [fst snd].
    rewrite no_request_update. discriminate.
Qed.

Lemma back_to_READ_SENSOR (now : Z) (reading : float) (g : Globals) :
  currentState (globals_of (loop now reading g)) = READ_SENSOR ->
  currentState g = UPDATE_DISPLAY /\ period_over now g = true
  /\ existsb is_request (calls_of (loop now reading g)) = false.
Proof.
  destruct (currentState g) eqn:E.
  - rewrite loop_READ_SENSOR by assumption. discriminate.
  - destruct (converted now g) eqn:C.
    + rewrite loop_WAIT_read by assumption. discriminate.
    + rewrite loop_WAIT_early by assumption. unfold globals_of; cbn [fst snd].
      rewrite E. discriminate.
  - rewrite loop_UPDATE_DISPLAY by assumption. unfold globals_of, calls_of; cbn [fst snd].
    rewrite no_request_update.
    destruct (period_over now g); [auto | discriminate].
Qed.

(** X2: in every execution on a clock that never runs backwards, a pass that
    issues a conversion request is made at least 2000 ms after the pass
    that issued the request before it. *)
Theorem request_spacing (ticks : list Tick)
        (done : list Entry) (e : Entry) (rest : list Entry) (t0 : Z) :
  monotonic ticks ->
  log ticks boot = done ++ e :: rest ->
  existsb is_request (e_calls e) = true ->
  last_request done = Some t0 ->
  t0 + 2000 <= e_now e.
Proof.
  intros Hm Hlog Hreq Hlast.
  pose proof Hlog as Hsplit. apply log_split in Hsplit.
  destruct Hsplit as (pre & tk & post & -> & -> & ->).
  cbn [e_calls e_now] in *.
  pose proof (monotonic_split _ _ _ Hm) as Hle. rewrite Forall_forall in Hle.
  destruct pre as [|tk' pre _] using rev_ind; [discriminate Hlast|].
  rewrite log_snoc, last_request_snoc in Hlast. cbn [e_calls e_now] in Hlast.
  apply request_in_READ_SENSOR in Hreq. rewrite run_snoc in Hreq.
  apply back_to_READ_SENSOR in Hreq. destruct Hreq as (E & P & Hno).
  unfold step in Hlast. rewrite Hno in Hlast.
  assert (Hpre : monotonic (pre ++ [tk'])) by exact (monotonic_prefix _ _ Hm).
  pose proof (anchored_run pre (monotonic_prefix _ _ Hpre)) as Hanch.
  pose proof (monotonic_split _ _ _ Hpre) as Hle'. rewrite Forall_forall in Hle'.
  assert (Hnow' : tick_now tk' <= tick_now tk).
  { apply Hle. rewrite map_app, in_app_iff. simpl. auto. }
  unfold anchored in Hanch. rewrite E in Hanch.
  destruct Hanch as (t0' & t1 & Hreq' & Hprev & Hin & Ht1).
  rewrite Hreq' in Hlast. injection Hlast as <-.
  assert (Ht0 : t0' <= tick_now tk').
  { apply Hle'. rewrite <- (log_times pre boot). now apply last_request_In. }
  unfold period_over, UL.geb in P. rewrite Hprev in P. apply Z.leb_le in P.
  change (UL.of_int sensorReadInterval) with 2000 in P.
  pose proof (elapsed_below _ _ Ht0). lia.
Qed.

(** X3: in every execution the conversion requests and the sensor reads
    alternate: after any number of passes the requests issued are as many
    as the reads made, plus one while the program waits in [WAIT]. *)
Theorem requests_and_reads (ticks : list Tick) :
  let calls := List.concat (map e_calls (log ticks boot)) in
  count is_request calls =
  (count is_read calls
   + (if State_eqb (currentState (run ticks boot)) WAIT then 1 else 0))%nat.
Proof.
  induction ticks as [|tk ticks IH] using rev_ind; [reflexivity|].
  cbv zeta in *. rewrite calls_snoc, run_snoc, !count_app.
  set (g := run ticks boot) in *. unfold step.
  set (R := count is_request (List.concat (map e_calls (log ticks boot)))) in *.
  set (D := count is_read (List.concat (map e_calls (log ticks boot)))) in *.
  clearbody R D.
  destruct (currentState g) eqn:E; cbn [State_eqb] in IH.
  - rewrite loop_READ_SENSOR by assumption. unfold globals_of, calls_of; cbn.
    lia.
  - destruct (converted (tick_now tk) g) eqn:C.
    + rewrite loop_WAIT_read by assumption. unfold globals_of, calls_of.
      cbn [fst snd after_read currentState State_eqb].
      destruct (valid (tick_reading tk)), (sensorConnected g); cbn; lia.
    + rewrite loop_WAIT_early by assumption. unfold globals_of, calls_of.
      cbn [fst snd]. rewrite E. cbn. lia.
  - rewrite loop_UPDATE_DISPLAY by assumption. unfold globals_of, calls_of.
    cbn [fst snd currentState].
    destruct (valueChanged g && sensorConnected g), (period_over (tick_now tk) g);
      cbn; lia.
Qed.

(** X4: in every execution the display is redrawn at most once per sensor
    read: the value rows are written (two [print] calls) at most once per
    read, counting a draw that is still pending, [loop] redraws the static
    layout at most once per read, and the error row is written only as part
    of such a redraw. *)
Theorem redraw_throttle (ticks : list Tick) :
  let calls := List.concat (map e_calls (log ticks boot)) in
  let g := run ticks boot in
  (value_row_draws calls
   + (if valueChanged g && sensorConnected g then 2 else 0)
   <= 2 * count is_read calls)%nat
  /\ (full_redraws calls <= count is_read calls)%nat
  /\ (error_draws calls <= full_redraws calls)%nat.
Proof.
  induction ticks as [|tk ticks IH] using rev_ind.
  - cbn. lia.
  - cbv zeta in *. rewrite calls_snoc, run_snoc.
    unfold value_row_draws, full_redraws, error_draws in *. rewrite !count_app.
    set (g := run ticks boot) in *. unfold step.
    set (V := count is_print (List.concat (map e_calls (log ticks boot)))) in *.
    set (F := count is_fillScreen (List.concat (map e_calls (log ticks boot)))) in *.
    set (X := count is_error_text (List.concat (map e_calls (log ticks boot)))) in *.
    set (D := count is_read (List.concat (map e_calls (log ticks boot)))) in *.
    clearbody V F X D.
    destruct IH as (IH1 & IH2 & IH3).
    destruct (currentState g) eqn:E.
    + rewrite loop_READ_SENSOR by assumption. unfold globals_of, calls_of; cbn.
      lia.
    + destruct (converted (tick_now tk) g) eqn:C.
      * rewrite loop_WAIT_read by assumption. unfold globals_of, calls_of.
        cbn [fst snd after_read valueChanged sensorConnected].
        destruct (valid (tick_reading tk)), (sensorConnected g),
          (changed (tick_reading tk) (previousTemperatureC g)), (valueChanged g);
          cbn in *; lia.
      * rewrite loop_WAIT_early by assumption. unfold globals_of, calls_of.
        cbn [fst snd]. cbn. lia.
    + rewrite loop_UPDATE_DISPLAY by assumption. unfold globals_of, calls_of.
      cbn [fst snd valueChanged sensorConnected].
      destruct (valueChanged g), (sensorConnected g); cbn in *; lia.
Qed.

(** ** What the variables hold *)

Lemma changed_same (r : float) : changed r r = false.
Proof.
  destruct r as [[|] | [|] | | s m e]; try reflexivity.
  unfold changed, F32.sub, SFsub. cbv zeta. rewrite Z.sub_diag. reflexivity.
Qed.

(** What holds of every pass of an execution from [boot], if it holds of
    every pass from a reachable state. *)
Lemma log_Forall (P : Entry -> Prop) :
  (forall (tk : Tick) (h : Globals), reachable h ->
     P (mkEntry (tick_now tk) h (calls_of (step tk h)) (globals_of (step tk h)))) ->
  forall (ticks : list Tick) (g : Globals),
    reachable g -> Forall P (log ticks g).
Proof.
  intros HP ticks. induction ticks as [|tk ticks IH]; intros g Hr; simpl.
  - constructor.
  - constructor; [apply HP; exact Hr|]. apply IH. apply reachable_step. exact Hr.
Qed.

(** X5: in every execution, until the sensor is first read the temperature
    variables keep their initial value 0.0 with [sensorConnected] true and
    nothing to draw; from the first read on, [temperatureF] is the
    [toFahrenheit] image of [temperatureC] and [sensorConnected] tells
    whether [temperatureC] differs from the sentinel, in every phase. *)
Theorem latest_reading (ticks : list Tick) :
  let calls := List.concat (map e_calls (log ticks boot)) in
  let g := run ticks boot in
  (count is_read calls = 0%nat -> fresh g)
  /\ (count is_read calls <> 0%nat -> reflects_reading g).
Proof.
  induction ticks as [|tk ticks IH] using rev_ind.
  - cbv zeta. split; [intros _; repeat split | intros H; now elim H].
  - cbv zeta in *. rewrite calls_snoc, run_snoc, count_app.
    set (g := run ticks boot) in *. unfold step.
    set (D := count is_read (List.concat (map e_calls (log ticks boot)))) in *.
    clearbody D. unfold fresh, reflects_reading in *.
    destruct (currentState g) eqn:E.
    + rewrite loop_READ_SENSOR by assumption. unfold globals_of, calls_of; cbn.
      rewrite Nat.add_0_r. exact IH.
    + destruct (converted (tick_now tk) g) eqn:C.
      * rewrite loop_WAIT_read by assumption. unfold globals_of, calls_of.
        cbn [fst snd after_read temperatureC temperatureF sensorConnected].
        split; [|intros _; split; reflexivity].
        destruct (valid (tick_reading tk)), (sensorConnected g); cbn; lia.
      * rewrite loop_WAIT_early by assumption. unfold globals_of, calls_of; cbn.
        rewrite Nat.add_0_r. exact IH.
    + rewrite loop_UPDATE_DISPLAY by assumption. unfold globals_of, calls_of.
      cbn [fst snd temperatureC temperatureF previousTemperatureC valueChanged
           sensorConnected].
      destruct IH as [IH0 IH1].
      destruct (valueChanged g) eqn:V, (sensorConnected g) eqn:Sc;
        cbn [andb count filter is_read value_rows List.length];
        rewrite Nat.add_0_r;
        (split; [|exact IH1]); intros H0;
        destruct (IH0 H0) as (H1 & H2 & H3 & H4 & H5);
        try discriminate; auto.
Qed.

Lemma reachable_fresh_or_reflects (g : Globals) :
  reachable g -> fresh g \/ reflects_reading g.
Proof.
  induction 1 as [|tk g Hr IH].
  - left. repeat split.
  - unfold step, fresh, reflects_reading in *. destruct (currentState g) eqn:E.
    + rewrite loop_READ_SENSOR by assumption. exact IH.
    + destruct (converted (tick_now tk) g) eqn:C.
      * rewrite loop_WAIT_read by assumption. right. split; reflexivity.
      * rewrite loop_WAIT_early by assumption. exact IH.
    + rewrite loop_UPDATE_DISPLAY by assumption. unfold globals_of.
      cbn [fst snd temperatureC temperatureF previousTemperatureC valueChanged
           sensorConnected].
      destruct IH as [(H1 & H2 & H3 & H4 & H5) | IH]; [left | right; exact IH].
      rewrite H4. cbn. auto.
Qed.

Lemma reachable_in_band (g : Globals) :
  reachable g ->
  sensorConnected g = true -> valueChanged g = false ->
  changed (temperatureC g) (previousTemperatureC g) = false.
Proof.
  induction 1 as [|tk g Hr IH].
  - reflexivity.
  - pose proof (reachable_settled g Hr) as Hs. unfold settled in Hs.
    unfold step. destruct (currentState g) eqn:E.
    + rewrite loop_READ_SENSOR by assumption. exact IH.
    + destruct (converted (tick_now tk) g) eqn:C.
      * rewrite loop_WAIT_read by assumption. unfold globals_of, after_read.
        cbn [fst snd temperatureC previousTemperatureC valueChanged sensorConnected].
        intros ->. cbn [andb].
        destruct (changed (tick_reading tk) (previousTemperatureC g)) eqn:Hc;
          [discriminate | intros _; exact Hc].
      * rewrite loop_WAIT_early by assumption. exact IH.
    + rewrite loop_UPDATE_DISPLAY by assumption. unfold globals_of.
      cbn [fst snd temperatureC previousTemperatureC valueChanged sensorConnected].
      intros Hconn _. destruct (valueChanged g) eqn:V.
      * destruct (Hs eq_refl) as (_ & _ & ->). apply changed_same.
      * apply IH; [exact Hconn | reflexivity].
Qed.

(** X6: in every execution, whenever the sensor counts as connected and no
    value-row draw is pending, the latest reading is within the hysteresis
    band of the reference value: [abs(temperatureC - previousTemperatureC)
    >= 0.1] is false. *)
Theorem reading_in_band (ticks : list Tick) :
  let g := run ticks boot in
  sensorConnected g = true -> valueChanged g = false ->
  changed (temperatureC g) (previousTemperatureC g) = false.
Proof. intros g. apply reachable_in_band, reachable_run. Qed.

(** X7: in every execution, a pass that writes the value rows writes the
    current reading and its [toFahrenheit] image, and that reading is valid
    (not the disconnect sentinel) and has just become the reference value;
    no other pass writes with [print]. *)
Theorem value_rows_show_valid_reading (ticks : list Tick) :
  Forall
    (fun e : Entry =>
       let c := temperatureC (e_before e) in
       if (0 <? value_row_draws (e_calls e))%nat
       then e_calls e = value_rows c (toFahrenheit c)
            /\ valid c = true
            /\ previousTemperatureC (e_before e) = c
            /\ currentState (e_before e) = UPDATE_DISPLAY
       else existsb is_print (e_calls e) = false)
    (log ticks boot).
Proof.
  apply log_Forall; [|apply reachable_boot].
  intros tk h Hr. cbn [e_before e_calls]. unfold step.
  pose proof (reachable_settled h Hr) as Hs. unfold settled in Hs.
  pose proof (reachable_fresh_or_reflects h Hr) as Hf.
  destruct (currentState h) eqn:E.
  - rewrite loop_READ_SENSOR by assumption. reflexivity.
  - destruct (converted (tick_now tk) h) eqn:C.
    + rewrite loop_WAIT_read by assumption. unfold calls_of; cbn [fst snd].
      destruct (valid (tick_reading tk)), (sensorConnected h); reflexivity.
    + rewrite loop_WAIT_early by assumption. reflexivity.
  - rewrite loop_UPDATE_DISPLAY by assumption. unfold calls_of; cbn [fst snd].
    destruct (valueChanged h) eqn:V; [|reflexivity].
    destruct (Hs eq_refl) as (_ & Hconn & Hprev). rewrite Hconn. cbn.
    destruct Hf as [(_ & _ & _ & Hvc & _) | (HF & HS)]; [congruence|].
    rewrite <- HF. rewrite <- HS. auto.
Qed.

(** ** What is on the screen *)

Lemma since_clear_none (b : list Call) :
  existsb is_fillScreen b = false -> since_clear b = b.
Proof.
  induction b as [|c b IH]; [reflexivity|]. cbn [existsb since_clear].
  intros H. apply orb_false_iff in H. destruct H as [Hc Hb].
  rewrite Hb, Hc. reflexivity.
Qed.

Lemma since_clear_app_keep (a b : list Call) :
  existsb is_fillScreen b = false -> since_clear (a ++ b) = since_clear a ++ b.
Proof.
  intros Hb. induction a as [|c a IH]; cbn [app since_clear].
  - now apply since_clear_none.
  - rewrite existsb_app, Hb, orb_false_r.
    destruct (existsb is_fillScreen a); [exact IH|].
    destruct (is_fillScreen c); reflexivity.
Qed.

Lemma since_clear_app_clear (a b : list Call) :
  existsb is_fillScreen b = true -> since_clear (a ++ b) = since_clear b.
Proof.
  intros Hb. induction a as [|c a IH]; cbn [app since_clear]; [reflexivity|].
  rewrite existsb_app, Hb, orb_true_r. exact IH.
Qed.

(** X8: after [setup] and after every pass of [loop], what was written
    since the screen was last cleared matches [sensorConnected]: the label
    of the Celsius row and the label of the Fahrenheit row are there exactly
    when it is true, the error message exactly when it is false, and value
    rows only when it is true. *)
Theorem screen_matches_connection (ticks : list Tick) :
  let shown := since_clear (all_calls ticks) in
  let g := run ticks boot in
  existsb is_label shown = sensorConnected g
  /\ existsb is_fahrenheit_label shown = sensorConnected g
  /\ existsb is_error_text shown = negb (sensorConnected g)
  /\ (existsb is_print shown = true -> sensorConnected g = true).
Proof.
  induction ticks as [|tk ticks IH] using rev_ind.
  - cbv zeta. repeat (split; [reflexivity|]). reflexivity.
  - cbv zeta in *. unfold all_calls in *. rewrite calls_snoc, run_snoc, app_assoc.
    set (A := calls_of (setup initial) ++ List.concat (map e_calls (log ticks boot))) in *.
    clearbody A. set (g := run ticks boot) in *. unfold step.
    destruct IH as (IHl & IHf & IHe & IHp).
    destruct (currentState g) eqn:E.
    + rewrite loop_READ_SENSOR by assumption. unfold globals_of, calls_of.
      cbn [fst snd sensorConnected].
      rewrite since_clear_app_keep, !existsb_app by reflexivity.
      cbn. rewrite !orb_false_r. auto.
    + destruct (converted (tick_now tk) g) eqn:C.
      * rewrite loop_WAIT_read by assumption. unfold globals_of, calls_of.
        cbn [fst snd after_read sensorConnected].
        destruct (valid (tick_reading tk)) eqn:V, (sensorConnected g) eqn:Sc;
          cbn [Bool.eqb].
        -- rewrite since_clear_app_keep, !existsb_app by reflexivity.
           cbn. rewrite !orb_false_r. auto.
        -- rewrite since_clear_app_clear by reflexivity. cbn. auto.
        -- rewrite since_clear_app_clear by reflexivity. cbn.
           repeat split; discriminate.
        -- rewrite since_clear_app_keep, !existsb_app by reflexivity.
           cbn. rewrite !orb_false_r. auto.
      * rewrite loop_WAIT_early by assumption. unfold globals_of, calls_of.
        cbn [fst snd]. rewrite app_nil_r. auto.
    + rewrite loop_UPDATE_DISPLAY by assumption. unfold globals_of, calls_of.
      cbn [fst snd sensorConnected].
      destruct (valueChanged g), (sensorConnected g) eqn:Sc; cbn [andb];
        rewrite ?app_nil_r; auto.
      rewrite since_clear_app_keep, !existsb_app by reflexivity.
      cbn. rewrite !orb_false_r. auto.
Qed.

(** X9: while the sensor stays disconnected the display is left alone: from
    globals with [sensorConnected] false, passes whose readings are all
    invalid make no call into the display driver and leave
    [sensorConnected] false. *)
Theorem disconnected_quiet (ticks : list Tick) (g : Globals) :
  sensorConnected g = false ->
  Forall (fun tk => valid (tick_reading tk) = false) ticks ->
  Forall (fun e => existsb is_tft (e_calls e) = false) (log ticks g)
  /\ sensorConnected (run ticks g) = false.
Proof.
  revert g. induction ticks as [|tk ticks IH]; intros g Hg Hv.
  - split; [constructor | exact Hg].
  - apply Forall_cons_iff in Hv. destruct Hv as [Hv Hrest].
    cbn [log run]. unfold step.
    assert (H : existsb is_tft (calls_of (loop (tick_now tk) (tick_reading tk) g)) = false
                /\ sensorConnected (globals_of (loop (tick_now tk) (tick_reading tk) g))
                   = false).
    { destruct (currentState g) eqn:E.
      - rewrite loop_READ_SENSOR by assumption. split; [reflexivity | exact Hg].
      - destruct (converted (tick_now tk) g) eqn:C.
        + rewrite loop_WAIT_read by assumption. unfold globals_of, calls_of.
          cbn [fst snd after_read sensorConnected]. rewrite Hv, Hg. split; reflexivity.
        + rewrite loop_WAIT_early by assumption. split; [reflexivity | exact Hg].
      - rewrite loop_UPDATE_DISPLAY by assumption. unfold globals_of, calls_of.
        cbn [fst snd sensorConnected]. rewrite Hg, andb_false_r.
        split; reflexivity. }
    destruct H as [Hc Hs]. destruct (IH _ Hs Hrest) as [IH1 IH2].
    split; [constructor; [exact Hc | exact IH1] | exact IH2].
Qed.

(** X10: what a pass may change: [firstRun] never; the temperature
    variables, the reference value and [sensorConnected] only in a pass
    that reads the sensor; [previousMillis] only in a pass that issues a
    conversion request, which sets it to the clock value of that pass. *)
Theorem pass_frame (g : Globals) (now : Z) (reading : float) :
  let r := loop now reading g in
  let g' := globals_of r in
  firstRun g' = firstRun g
  /\ (if existsb is_read (calls_of r) then currentState g = WAIT
      else temperatureC g' = temperatureC g /\ temperatureF g' = temperatureF g
           /\ previousTemperatureC g' = previousTemperatureC g
           /\ sensorConnected g' = sensorConnected g)
  /\ previousMillis g' =
     (if existsb is_request (calls_of r) then millis now else previousMillis g).
Proof.
  cbv zeta. destruct (currentState g) eqn:E.
  - rewrite loop_READ_SENSOR by assumption. cbn. repeat split; assumption.
  - destruct (converted now g) eqn:C.
    + rewrite loop_WAIT_read by assumption. unfold globals_of, calls_of.
      cbn [fst snd]. rewrite no_request_read. cbn. repeat split; assumption.
    + rewrite loop_WAIT_early by assumption. cbn. repeat split; assumption.
  - rewrite loop_UPDATE_DISPLAY by assumption. unfold globals_of, calls_of.
    cbn [fst snd]. rewrite no_request_update.
    destruct (valueChanged g && sensorConnected g); cbn; repeat split; assumption.
Qed.

(** ** The clock and the change test at their edges *)

Lemma millis_period (now k : Z) : millis (now + k * 2 ^ 32) = millis now.
Proof. unfold millis, UL.wrap. apply Z.mod_add. discriminate. Qed.

(** X11: a pass sees the time only modulo 2^32 ms, the range of
    [millis()]: made a whole number of roll-overs later it does exactly the
    same; so a pass that comes 2^32 ms after the request finds the wait
    not over. *)
Theorem time_modulo_rollover (g : Globals) (now k : Z) (reading : float) :
  loop (now + k * 2 ^ 32) reading g = loop now reading g
  /\ (currentState g = WAIT -> previousMillis g = millis now ->
      loop (now + 2 ^ 32) reading g = (tt, g, [])).
Proof.
  assert (H : forall j, loop (now + j * 2 ^ 32) reading g = loop now reading g).
  { intros j. unfold loop. rewrite millis_period. reflexivity. }
  split; [apply H|].
  intros E Hprev. replace (now + 2 ^ 32) with (now + 1 * 2 ^ 32) by lia.
  rewrite H. apply loop_WAIT_early; [exact E|].
  unfold converted, UL.geb. rewrite Hprev. unfold UL.sub. rewrite Z.sub_diag.
  reflexivity.
Qed.

Lemma binary_round_abs (s : bool) (m : positive) (e : Z) :
  SFabs (binary_round F32.prec F32.emax s m e)
  = SFabs (binary_round F32.prec F32.emax false m e).
Proof.
  unfold binary_round, binary_round_aux.
  destruct (shl_align m e (fexp F32.prec F32.emax (Z.pos (digits2_pos m) + e)))
    as [mz ez].
  destruct (shr_fexp F32.prec F32.emax (Z.pos mz) ez loc_Exact) as [mrs e'].
  destruct (shr_fexp F32.prec F32.emax
              (round_nearest_even (shr_m mrs) (loc_of_shr_record mrs)) e' loc_Exact)
    as [mrs' e''].
  destruct (shr_m mrs'); try reflexivity.
  destruct (e'' <=? F32.emax - F32.prec); reflexivity.
Qed.

Lemma binary_normalize_abs (d e : Z) :
  SFabs (binary_normalize F32.prec F32.emax (- d) e false)
  = SFabs (binary_normalize F32.prec F32.emax d e false).
Proof.
  destruct d as [|p|p]; cbn [Z.opp binary_normalize]; try reflexivity.
  - apply binary_round_abs.
  - symmetry. apply binary_round_abs.
Qed.

(** X12: the change test treats the reading and the reference alike:
    [abs(a - b) >= 0.1] and [abs(b - a) >= 0.1] agree in single precision,
    for all floats, infinities and NaN included, so a rise and a fall of
    the same size are drawn or skipped alike. *)
Theorem changed_symmetric (a b : float) : changed a b = changed b a.
Proof.
  unfold changed, F32.abs. f_equal. f_equal.
  destruct a as [sa | sa | | sa ma ea], b as [sb | sb | | sb mb eb];
    try solve [ repeat match goal with s : bool |- _ => destruct s end;
                reflexivity ].
  unfold F32.sub, SFsub. cbv zeta. rewrite (Z.min_comm eb ea).
  rewrite <- binary_normalize_abs. f_equal. f_equal. lia.
Qed.

End Program.

(** * Concrete runs *)

(** The [double] literal 0.1 is 3602879701896397 * 2^-55, just above 1/10. *)
Example lit_0_1_bits :
  F64.lit_0_1 = S754_finite false 7205759403792794 (-56).
Proof. reflexivity. Qed.

Example String_22 : Drivers.String_ Example.c_22 = "22.00"%string.
Proof. reflexivity. Qed.

Example first_cycle_calls :
  map e_calls
      (log Drivers.toFahrenheit Drivers.DEVICE_DISCONNECTED_C Drivers.String_
           Example.first_cycle boot) =
  [ [sensors_requestTemperatures];
    [];
    [sensors_getTempCByIndex 0];
    [ tft_setTextColor TFT_WHITE TFT_BLACK;
      tft_setCursor 0 85; tft_print "22.00 C    ";
      tft_setCursor 0 133; tft_print "71.60 F    " ];
    [];
    [] ].
Proof. vm_compute. reflexivity. Qed.

Example first_cycle_phases :
  phases Drivers.toFahrenheit Drivers.DEVICE_DISCONNECTED_C Drivers.String_
         Example.first_cycle boot =
  [ WAIT; WAIT; UPDATE_DISPLAY; UPDATE_DISPLAY; UPDATE_DISPLAY; READ_SENSOR ].
Proof. vm_compute. reflexivity. Qed.

Example unplugged_calls :
  map e_calls (log Drivers.toFahrenheit Drivers.DEVICE_DISCONNECTED_C Drivers.String_ Example.unplugged boot) =
  [ [sensors_requestTemperatures];
    [];
    [ sensors_getTempCByIndex 0;
      tft_fillScreen TFT_BLACK; tft_setCursor 0 0; tft_setTextColor TFT_WHITE TFT_BLACK;
      tft_println "---------------------------";
      tft_println " DS18B20 Sensor Module";
      tft_println "---------------------------";
      tft_setTextColor TFT_WHITE TFT_BLACK; tft_setCursor 0 85;
      tft_println (nl ++ "!! Sensor Not Connected !!") ];
    [];
    [];
    [sensors_requestTemperatures];
    [ sensors_getTempCByIndex 0;
      tft_fillScreen TFT_BLACK; tft_setCursor 0 0; tft_setTextColor TFT_WHITE TFT_BLACK;
      tft_println "---------------------------";
      tft_println " DS18B20 Sensor Module";
      tft_println "---------------------------";
      tft_println (nl ++ "Temp in Celcius:");
      tft_println (nl ++ nl ++ "Temp in Fahrenheit:") ];
    [ tft_setTextColor TFT_WHITE TFT_BLACK;
      tft_setCursor 0 85; tft_print "22.00 C    ";
      tft_setCursor 0 133; tft_print "71.60 F    " ] ].
Proof. vm_compute. reflexivity. Qed.

Example oscillation_draws :
  map (fun e => value_row_draws (e_calls e))
      (log Drivers.toFahrenheit Drivers.DEVICE_DISCONNECTED_C Drivers.String_ Example.oscillation boot) =
  [ 0; 0; 2; 0; 0; 0; 0; 0; 0; 0; 0 ]%nat.
Proof. vm_compute. reflexivity. Qed.

(** On the sensor's grid the test [changed] tells one step of 1/16 degree
    from two. *)
Example changed_on_grid :
  forallb
    (fun k : nat =>
       let c i := F32.ldexp (Z.of_nat k - 880 + i) (-4) in
       negb (changed (c 0) (c 0))
       && negb (changed (c 1) (c 0)) && negb (changed (c 0) (c 1))
       && changed (c 2) (c 0) && changed (c 0) (c 2))
    (seq 0 2879) = true.
Proof. vm_compute. reflexivity. Qed.

(** ** The theorems at concrete runs *)

Lemma first_cycle_monotonic : monotonic Example.first_cycle.
Proof.
  unfold monotonic, Example.first_cycle. cbn [map tick_now].
  repeat constructor; discriminate.
Defined.

Lemma conversion_wait_witness :
  let L := log Drivers.toFahrenheit Drivers.DEVICE_DISCONNECTED_C Drivers.String_ Example.first_cycle boot in
  let done := firstn 2 L in
  let e := nth 2 L Example.no_entry in
  let rest := skipn 3 L in
  monotonic Example.first_cycle
  /\ log Drivers.toFahrenheit Drivers.DEVICE_DISCONNECTED_C Drivers.String_ Example.first_cycle boot = done ++ e :: rest
  /\ ((currentState (e_before e) = UPDATE_DISPLAY
       \/ currentState (e_after e) = UPDATE_DISPLAY
       \/ existsb is_read (e_calls e) = true ->
       exists t0, last_request done = Some t0 /\ t0 + 750 <= e_now e)
      /\
      (currentState (e_before e) = WAIT ->
       exists t0, last_request done = Some t0 /\ t0 <= e_now e
         /\ (e_now e < t0 + 750 -> e_after e = e_before e /\ e_calls e = []))).
Proof.
  intros L done e rest.
  assert (Hlog : log Drivers.toFahrenheit Drivers.DEVICE_DISCONNECTED_C Drivers.String_ Example.first_cycle boot = done ++ e :: rest)
    by reflexivity.
  split; [exact first_cycle_monotonic|]. split; [exact Hlog|].
  exact (conversion_wait Drivers.toFahrenheit Drivers.DEVICE_DISCONNECTED_C Drivers.String_ Example.first_cycle done e rest
           first_cycle_monotonic Hlog).
Defined.

Lemma poll_period_anchor_witness :
  let L := log Drivers.toFahrenheit Drivers.DEVICE_DISCONNECTED_C Drivers.String_ Example.first_cycle boot in
  let done := firstn 5 L in
  let e := nth 5 L Example.no_entry in
  let rest := skipn 6 L in
  monotonic Example.first_cycle
  /\ log Drivers.toFahrenheit Drivers.DEVICE_DISCONNECTED_C Drivers.String_ Example.first_cycle boot = done ++ e :: rest
  /\ currentState (e_before e) = UPDATE_DISPLAY
  /\ exists t0,
       last_request done = Some t0 /\ t0 <= e_now e
       /\ previousMillis (e_before e) = millis t0
       /\ previousMillis (e_after e) = millis t0
       /\ (currentState (e_after e) = READ_SENSOR
           <-> 2000 <= (e_now e - t0) mod 2 ^ 32)
       /\ (e_now e - t0 < 2 ^ 32 ->
           (currentState (e_after e) = READ_SENSOR <-> t0 + 2000 <= e_now e)).
Proof.
  intros L done e rest.
  assert (Hlog : log Drivers.toFahrenheit Drivers.DEVICE_DISCONNECTED_C Drivers.String_ Example.first_cycle boot = done ++ e :: rest)
    by reflexivity.
  assert (Hst : currentState (e_before e) = UPDATE_DISPLAY) by reflexivity.
  split; [exact first_cycle_monotonic|]. split; [exact Hlog|]. split; [exact Hst|].
  exact (poll_period_anchor Drivers.toFahrenheit Drivers.DEVICE_DISCONNECTED_C Drivers.String_ Example.first_cycle done e rest
           first_cycle_monotonic Hlog Hst).
Defined.





Lemma presenter_idempotent_witness :
  let g := globals_of (step Drivers.toFahrenheit Drivers.DEVICE_DISCONNECTED_C Drivers.String_ (mkTick 0 Example.c_0_0625) boot) in
  let ticks := [mkTick 760 Example.c_0_0625; mkTick 1999 Example.c_0_0625] in
  let g' := globals_of (loop Drivers.toFahrenheit Drivers.DEVICE_DISCONNECTED_C Drivers.String_ 750 Example.c_0_0625 g) in
  let h := globals_of (loop Drivers.toFahrenheit Drivers.DEVICE_DISCONNECTED_C Drivers.String_ 750 Example.c_22 g) in
  let h' := globals_of (loop Drivers.toFahrenheit Drivers.DEVICE_DISCONNECTED_C Drivers.String_ 760 Example.c_22 h) in
  let later := [mkTick 770 Example.c_22; mkTick 1999 Example.c_22] in
  (stays_in_display (log Drivers.toFahrenheit Drivers.DEVICE_DISCONNECTED_C Drivers.String_ ticks g')
   /\ reachable Drivers.toFahrenheit Drivers.DEVICE_DISCONNECTED_C Drivers.String_ g /\ currentState g = WAIT /\ converted 750 g = true
   /\ valid Drivers.DEVICE_DISCONNECTED_C Example.c_0_0625 = true
   /\ changed Example.c_0_0625 (previousTemperatureC g) = false
   /\ value_row_draws (calls_of (loop Drivers.toFahrenheit Drivers.DEVICE_DISCONNECTED_C Drivers.String_ 750 Example.c_0_0625 g)) = 0%nat
   /\ silent (log Drivers.toFahrenheit Drivers.DEVICE_DISCONNECTED_C Drivers.String_ ticks g'))
  /\
  (stays_in_display (log Drivers.toFahrenheit Drivers.DEVICE_DISCONNECTED_C Drivers.String_ later h')
   /\ currentState h = UPDATE_DISPLAY
   /\ value_row_draws (calls_of (loop Drivers.toFahrenheit Drivers.DEVICE_DISCONNECTED_C Drivers.String_ 760 Example.c_22 h)) = 2%nat
   /\ silent (log Drivers.toFahrenheit Drivers.DEVICE_DISCONNECTED_C Drivers.String_ later h')).
Proof.
  intros g ticks g' h h' later. split.
  - assert (Hs : stays_in_display (log Drivers.toFahrenheit Drivers.DEVICE_DISCONNECTED_C Drivers.String_ ticks g'))
      by (repeat constructor).
    assert (Hr : reachable Drivers.toFahrenheit Drivers.DEVICE_DISCONNECTED_C Drivers.String_ g) by (apply reachable_step, reachable_boot).
    assert (E : currentState g = WAIT) by reflexivity.
    assert (C : converted 750 g = true) by reflexivity.
    assert (V : valid Drivers.DEVICE_DISCONNECTED_C Example.c_0_0625 = true) by reflexivity.
    assert (H : changed Example.c_0_0625 (previousTemperatureC g) = false) by reflexivity.
    repeat (split; [assumption|]).
    exact (proj2 (presenter_idempotent Drivers.toFahrenheit Drivers.DEVICE_DISCONNECTED_C Drivers.String_ g 750 Example.c_0_0625 ticks Hs)
             Hr E C V H).
  - assert (Hs : stays_in_display (log Drivers.toFahrenheit Drivers.DEVICE_DISCONNECTED_C Drivers.String_ later h'))
      by (repeat constructor).
    assert (E : currentState h = UPDATE_DISPLAY) by reflexivity.
    split; [exact Hs|]. split; [exact E|]. split; [reflexivity|].
    exact (proj1 (presenter_idempotent Drivers.toFahrenheit Drivers.DEVICE_DISCONNECTED_C Drivers.String_ h 760 Example.c_22 later Hs) E).
Defined.

Lemma static_layout_at_setup_witness :
  let g := globals_of (loop Drivers.toFahrenheit Drivers.DEVICE_DISCONNECTED_C Drivers.String_ 0 Example.c_22 boot) in
  converted 750 g = true
  /\ firstRun boot = false
  /\ currentState g = WAIT
  /\ calls_of (loop Drivers.toFahrenheit Drivers.DEVICE_DISCONNECTED_C Drivers.String_ 750 Example.c_22 g) = [sensors_getTempCByIndex 0]
  /\ full_redraws (calls_of (loop Drivers.toFahrenheit Drivers.DEVICE_DISCONNECTED_C Drivers.String_ 750 Example.c_22 g)) = 0%nat.
Proof.
  intros g.
  assert (C : converted 750 g = true) by reflexivity.
  split; [exact C|].
  destruct (static_layout_at_setup Drivers.toFahrenheit Drivers.DEVICE_DISCONNECTED_C Drivers.String_ 0 Example.c_22 750 Example.c_22 C)
    as (_ & Hfr & _ & Hst & Hcalls & Hfull).
  repeat split; assumption.
Defined.

Lemma fahrenheit_of_raw_witness :
  let r := loop Drivers.toFahrenheit Drivers.DEVICE_DISCONNECTED_C Drivers.String_ 750 Drivers.DEVICE_DISCONNECTED_C Example.waiting in
  existsb is_read (calls_of r) = true
  /\ temperatureC (globals_of r) = Drivers.DEVICE_DISCONNECTED_C
  /\ temperatureF (globals_of r) = Drivers.toFahrenheit Drivers.DEVICE_DISCONNECTED_C
  /\ sensorConnected (globals_of r) = false.
Proof.
  intros r.
  assert (H : existsb is_read (calls_of r) = true) by reflexivity.
  split; [exact H|].
  destruct (fahrenheit_of_raw Drivers.toFahrenheit Drivers.DEVICE_DISCONNECTED_C Drivers.String_ Example.waiting 750 Drivers.DEVICE_DISCONNECTED_C H)
    as (HC & HF & HS & _).
  repeat split; assumption.
Defined.

Lemma hysteresis_reference_witness :
  let g := globals_of (step Drivers.toFahrenheit Drivers.DEVICE_DISCONNECTED_C Drivers.String_ (mkTick 0 Example.c_0_0625) boot) in
  let r := loop Drivers.toFahrenheit Drivers.DEVICE_DISCONNECTED_C Drivers.String_ 750 Example.c_0_0625 g in
  reachable Drivers.toFahrenheit Drivers.DEVICE_DISCONNECTED_C Drivers.String_ g
  /\ currentState g = WAIT /\ converted 750 g = true
  /\ valid Drivers.DEVICE_DISCONNECTED_C Example.c_0_0625 = true
  /\ changed Example.c_0_0625 (previousTemperatureC g) = false
  /\ calls_of r = [sensors_getTempCByIndex 0]
  /\ value_row_draws (calls_of r) = 0%nat
  /\ previousTemperatureC (globals_of r) = F32.zero
  /\ calls_of (loop Drivers.toFahrenheit Drivers.DEVICE_DISCONNECTED_C Drivers.String_ 760 Example.c_0_0625 (globals_of r)) = [].
Proof.
  intros g r.
  assert (Hr : reachable Drivers.toFahrenheit Drivers.DEVICE_DISCONNECTED_C Drivers.String_ g) by (apply reachable_step, reachable_boot).
  assert (E : currentState g = WAIT) by reflexivity.
  assert (C : converted 750 g = true) by reflexivity.
  assert (V : valid Drivers.DEVICE_DISCONNECTED_C Example.c_0_0625 = true) by reflexivity.
  assert (H : changed Example.c_0_0625 (previousTemperatureC g) = false) by reflexivity.
  repeat (split; [assumption|]).
  destruct (hysteresis_reference Drivers.toFahrenheit Drivers.DEVICE_DISCONNECTED_C Drivers.String_ g 750 Example.c_0_0625 760 Example.c_0_0625 Hr)
    as (_ & _ & _ & Hq).
  exact (Hq E C V H).
Defined.

(** ** Fahrenheit values *)

Lemma pow2_mod5 (n : nat) : 1 <= 2 ^ Z.of_nat n mod 5 <= 4.
Proof.
  induction n as [|n IH].
  - simpl. rewrite Z.mod_small; lia.
  - rewrite Nat2Z.inj_succ, Z.pow_succ_r by lia.
    rewrite <- Z.mul_mod_idemp_r by lia.
    set (r := 2 ^ Z.of_nat n mod 5) in *.
    assert (H : r = 1 \/ r = 2 \/ r = 3 \/ r = 4) by lia.
    destruct H as [-> | [-> | [-> | ->]]]; cbn; lia.
Qed.

(** 32.1125 = 2569/80, the Fahrenheit image of 0.0625 degrees Celsius, is
    the value of no float: its denominator is not a power of two. *)
Lemma no_float_2569_80 (x : float) : ~ (F32.value x == 2569 # 80)%Q.
Proof.
  unfold Qeq. destruct x as [s | s | | s m e]; cbn [F32.value Qnum Qden]; try discriminate.
  set (n := if s then Z.neg m else Z.pos m). clearbody n.
  destruct e as [| p | k]; cbn [Qnum Qden inject_Z].
  - lia.
  - generalize (n * 2 ^ Z.pos p). intros y. lia.
  - rewrite Pos2Z.inj_pow.
    pose proof (pow2_mod5 (Pos.to_nat k)) as H.
    rewrite positive_nat_Z in H.
    change (Z.pos 2) with 2.
    set (y := 2 ^ Z.pos k) in *. clearbody y.
    pose proof (Z.div_mod y 5 ltac:(lia)) as Hy.
    intros Heq. lia.
Qed.

(** C8 (as stated, refuted): whatever function of floats the driver's
    [toFahrenheit] is, the stored Fahrenheit value cannot equal
    [celsius * 9/5 + 32] for every finite reading between -55 and 125: the
    reading 0.0625 has an image that no float denotes. *)
Lemma fahrenheit_not_exact :
  ~ exists toF : float -> float,
      forall (sentinel : float) (str : float -> string)
             (g : Globals) (now : Z) (reading : float),
        currentState g = WAIT -> converted now g = true ->
        F32.is_finite reading = true ->
        (-55 <= F32.value reading <= 125)%Q ->
        (F32.value (temperatureF (globals_of (loop toF sentinel str now reading g)))
         == spec_fahrenheit (F32.value reading))%Q.
Proof.
  intros [toF H].
  specialize (H F32.zero (fun _ => EmptyString) Example.waiting 750 Example.c_0_0625
                eq_refl eq_refl eq_refl).
  apply (no_float_2569_80 (toF Example.c_0_0625)).
  rewrite loop_WAIT_read in H by reflexivity.
  unfold globals_of, after_read in H. cbn [fst snd temperatureF] in H.
  rewrite H.
  - reflexivity.
  - split; unfold Qle; vm_compute; discriminate.
Qed.

Lemma sensor_grid_error :
  forallb
    (fun k : nat =>
       let c := F32.ldexp (Z.of_nat k - 880) (-4) in
       Qle_bool (Qabs (F32.value (Drivers.toFahrenheit c) - spec_fahrenheit (F32.value c)))
                (1 # 65536))
    (seq 0 2881) = true.
Proof. vm_compute. reflexivity. Qed.

(** C8 (amended): the pass that reads the sensor stores the single-precision
    result of [toFahrenheit]; with the specification's formula evaluated in
    single precision, for every reading on the sensor's 12-bit grid (the
    multiples of 1/16 from -55 to 125) the stored value is within 2^-16 of
    [celsius * 9/5 + 32]. *)
Theorem fahrenheit_rounded (sentinel : float) (str : float -> string)
        (g : Globals) (now : Z) (n : Z) :
  currentState g = WAIT -> converted now g = true ->
  -880 <= n <= 2000 ->
  let c := F32.ldexp n (-4) in
  let g' := globals_of (loop Drivers.toFahrenheit sentinel str now c g) in
  temperatureF g' = Drivers.toFahrenheit c
  /\ (Qabs (F32.value (temperatureF g') - spec_fahrenheit (F32.value c))
      <= 1 # 65536)%Q.
Proof.
  intros E C Hn c g'. subst g'.
  rewrite loop_WAIT_read by assumption.
  unfold globals_of, after_read. cbn [fst snd temperatureF].
  split; [reflexivity|].
  pose proof sensor_grid_error as Hgrid.
  rewrite forallb_forall in Hgrid.
  specialize (Hgrid (Z.to_nat (n + 880))).
  replace (Z.of_nat (Z.to_nat (n + 880)) - 880) with n in Hgrid by lia.
  apply Qle_bool_iff. apply Hgrid.
  apply in_seq. lia.
Qed.

Lemma fahrenheit_rounded_witness :
  let c := F32.ldexp 1 (-4) in
  let g' := globals_of (loop Drivers.toFahrenheit Drivers.DEVICE_DISCONNECTED_C Drivers.String_ 750 c Example.waiting) in
  currentState Example.waiting = WAIT /\ converted 750 Example.waiting = true
  /\ -880 <= 1 <= 2000
  /\ temperatureF g' = Drivers.toFahrenheit c
  /\ (Qabs (F32.value (temperatureF g') - spec_fahrenheit (F32.value c))
      <= 1 # 65536)%Q.
Proof.
  intros c g'.
  assert (E : currentState Example.waiting = WAIT) by reflexivity.
  assert (C : converted 750 Example.waiting = true) by reflexivity.
  assert (Hn : -880 <= 1 <= 2000) by (split; discriminate).
  split; [exact E|]. split; [exact C|]. split; [exact Hn|].
  exact (fahrenheit_rounded Drivers.DEVICE_DISCONNECTED_C Drivers.String_ Example.waiting 750 1 E C Hn).
Defined.

(** ** Runs that contradict the specification as worded *)

Example drift_calls :
  map e_calls (log Drivers.toFahrenheit Drivers.DEVICE_DISCONNECTED_C Drivers.String_ Example.drift boot) =
  [ [sensors_requestTemperatures];
    [sensors_getTempCByIndex 0];
    [];
    [];
    [sensors_requestTemperatures];
    [sensors_getTempCByIndex 0];
    [ tft_setTextColor TFT_WHITE TFT_BLACK;
      tft_setCursor 0 85; tft_print "0.13 C    ";
      tft_setCursor 0 133; tft_print "32.22 F    " ] ].
Proof. vm_compute. reflexivity. Qed.

Example exotic_draws :
  map (fun e => (previousTemperatureC (e_after e), value_row_draws (e_calls e)))
      (log Drivers.toFahrenheit Drivers.DEVICE_DISCONNECTED_C Drivers.String_ Example.exotic boot) =
  [ (F32.zero, 0%nat); (Example.c_1, 0%nat); (Example.c_1, 2%nat); (Example.c_1, 0%nat);
    (Example.c_1, 0%nat); (Example.c_tiny, 0%nat); (Example.c_tiny, 2%nat);
    (Example.c_tiny, 0%nat);
    (Example.c_tiny, 0%nat); (Example.c_below_tenth, 0%nat);
    (Example.c_below_tenth, 2%nat) ].
Proof. vm_compute. reflexivity. Qed.


(** C6 (as stated, refuted): the readings 0.0625 and 0.125 are valid,
    consecutive and less than 0.1 apart, the first one draws no value row
    and leaves the reference at 0.0, and the second one is drawn. *)
Lemma second_reading_redrawn :
  let L := log Drivers.toFahrenheit Drivers.DEVICE_DISCONNECTED_C Drivers.String_ Example.drift boot in
  ~ (valid Drivers.DEVICE_DISCONNECTED_C Example.c_0_0625 = true ->
     valid Drivers.DEVICE_DISCONNECTED_C Example.c_0_125 = true ->
     temperatureC (e_after (nth 1 L Example.no_entry)) = Example.c_0_0625 ->
     temperatureC (e_after (nth 5 L Example.no_entry)) = Example.c_0_125 ->
     changed Example.c_0_125 Example.c_0_0625 = false ->
     value_row_draws (List.concat (map e_calls (skipn 5 L))) = 0%nat).
Proof.
  intros L H.
  specialize (H eq_refl eq_refl eq_refl eq_refl eq_refl).
  vm_compute in H. discriminate.
Qed.

(** C7 (as stated, refuted): with the sensor at 22.0 degrees no pass of the
    first poll cycle redraws the static layout. *)
Lemma first_commit_no_redraw :
  ~ (1 <= full_redraws
            (List.concat (map e_calls (log Drivers.toFahrenheit Drivers.DEVICE_DISCONNECTED_C Drivers.String_ Example.first_cycle boot))))%nat.
Proof.
  intros H. vm_compute in H. inversion H.
Qed.

(** ** The further properties at concrete runs *)

Example rollover_phases :
  map (fun e => (millis (e_now e), currentState (e_after e), e_calls e))
      (log Drivers.toFahrenheit Drivers.DEVICE_DISCONNECTED_C Drivers.String_ Example.rollover boot) =
  [ (4294967000, WAIT, [sensors_requestTemperatures]);
    (204, WAIT, []);
    (504, UPDATE_DISPLAY, [sensors_getTempCByIndex 0]);
    (604, UPDATE_DISPLAY,
     [ tft_setTextColor TFT_WHITE TFT_BLACK;
       tft_setCursor 0 85; tft_print "22.00 C    ";
       tft_setCursor 0 133; tft_print "71.60 F    " ]) ].
Proof. vm_compute. reflexivity. Qed.

Lemma rollover_monotonic : monotonic Example.rollover.
Proof.
  unfold monotonic, Example.rollover. cbn [map tick_now].
  repeat constructor; discriminate.
Defined.

Lemma drift_monotonic : monotonic Example.drift.
Proof.
  unfold monotonic, Example.drift. cbn [map tick_now].
  repeat constructor; discriminate.
Defined.

Lemma wait_deadline_witness :
  let L := log Drivers.toFahrenheit Drivers.DEVICE_DISCONNECTED_C Drivers.String_ Example.rollover boot in
  let done := firstn 2 L in
  let e := nth 2 L Example.no_entry in
  let rest := skipn 3 L in
  monotonic Example.rollover
  /\ log Drivers.toFahrenheit Drivers.DEVICE_DISCONNECTED_C Drivers.String_ Example.rollover boot = done ++ e :: rest
  /\ currentState (e_before e) = WAIT
  /\ exists t0,
       last_request done = Some t0 /\ t0 <= e_now e
       /\ (existsb is_read (e_calls e) = true <-> 750 <= (e_now e - t0) mod 2 ^ 32)
       /\ (currentState (e_after e) = UPDATE_DISPLAY
           <-> 750 <= (e_now e - t0) mod 2 ^ 32)
       /\ (e_now e - t0 < 2 ^ 32 ->
           (currentState (e_after e) = UPDATE_DISPLAY <-> t0 + 750 <= e_now e)).
Proof.
  intros L done e rest.
  assert (Hlog : log Drivers.toFahrenheit Drivers.DEVICE_DISCONNECTED_C Drivers.String_ Example.rollover boot = done ++ e :: rest)
    by reflexivity.
  assert (Hst : currentState (e_before e) = WAIT) by reflexivity.
  split; [exact rollover_monotonic|]. split; [exact Hlog|]. split; [exact Hst|].
  exact (wait_deadline Drivers.toFahrenheit Drivers.DEVICE_DISCONNECTED_C Drivers.String_ Example.rollover done e rest
           rollover_monotonic Hlog Hst).
Defined.

Lemma request_spacing_witness :
  let L := log Drivers.toFahrenheit Drivers.DEVICE_DISCONNECTED_C Drivers.String_ Example.drift boot in
  let done := firstn 4 L in
  let e := nth 4 L Example.no_entry in
  let rest := skipn 5 L in
  monotonic Example.drift
  /\ log Drivers.toFahrenheit Drivers.DEVICE_DISCONNECTED_C Drivers.String_ Example.drift boot = done ++ e :: rest
  /\ existsb is_request (e_calls e) = true
  /\ last_request done = Some 0
  /\ 0 + 2000 <= e_now e.
Proof.
  intros L done e rest.
  assert (Hlog : log Drivers.toFahrenheit Drivers.DEVICE_DISCONNECTED_C Drivers.String_ Example.drift boot = done ++ e :: rest)
    by reflexivity.
  assert (Hreq : existsb is_request (e_calls e) = true) by reflexivity.
  assert (Hlast : last_request done = Some 0) by reflexivity.
  split; [exact drift_monotonic|]. split; [exact Hlog|]. split; [exact Hreq|].
  split; [exact Hlast|].
  exact (request_spacing Drivers.toFahrenheit Drivers.DEVICE_DISCONNECTED_C Drivers.String_ Example.drift done e rest 0
           drift_monotonic Hlog Hreq Hlast).
Defined.

Lemma latest_reading_witness :
  let calls := List.concat (map e_calls (log Drivers.toFahrenheit Drivers.DEVICE_DISCONNECTED_C Drivers.String_ Example.first_cycle boot)) in
  let g := run Drivers.toFahrenheit Drivers.DEVICE_DISCONNECTED_C Drivers.String_ Example.first_cycle boot in
  (count is_read (List.concat (map e_calls (log Drivers.toFahrenheit Drivers.DEVICE_DISCONNECTED_C Drivers.String_ [] boot))) = 0%nat
   /\ fresh (run Drivers.toFahrenheit Drivers.DEVICE_DISCONNECTED_C Drivers.String_ [] boot))
  /\ count is_read calls <> 0%nat
  /\ reflects_reading Drivers.toFahrenheit Drivers.DEVICE_DISCONNECTED_C g.
Proof.
  intros calls g.
  assert (H0 : count is_read (List.concat (map e_calls (log Drivers.toFahrenheit Drivers.DEVICE_DISCONNECTED_C Drivers.String_ [] boot))) = 0%nat)
    by reflexivity.
  assert (H1 : count is_read calls <> 0%nat) by discriminate.
  split; [split; [exact H0|]|split; [exact H1|]].
  - exact (proj1 (latest_reading Drivers.toFahrenheit Drivers.DEVICE_DISCONNECTED_C Drivers.String_ []) H0).
  - exact (proj2 (latest_reading Drivers.toFahrenheit Drivers.DEVICE_DISCONNECTED_C Drivers.String_ Example.first_cycle) H1).
Defined.

Lemma reading_in_band_witness :
  let g := run Drivers.toFahrenheit Drivers.DEVICE_DISCONNECTED_C Drivers.String_ Example.first_cycle boot in
  sensorConnected g = true /\ valueChanged g = false
  /\ changed (temperatureC g) (previousTemperatureC g) = false.
Proof.
  intros g.
  assert (Hc : sensorConnected g = true) by reflexivity.
  assert (Hv : valueChanged g = false) by reflexivity.
  split; [exact Hc|]. split; [exact Hv|].
  exact (reading_in_band Drivers.toFahrenheit Drivers.DEVICE_DISCONNECTED_C Drivers.String_ Example.first_cycle Hc Hv).
Defined.

Lemma screen_matches_connection_witness :
  let shown := since_clear (all_calls Drivers.toFahrenheit Drivers.DEVICE_DISCONNECTED_C Drivers.String_ Example.first_cycle) in
  let g := run Drivers.toFahrenheit Drivers.DEVICE_DISCONNECTED_C Drivers.String_ Example.first_cycle boot in
  existsb is_print shown = true /\ sensorConnected g = true.
Proof.
  intros shown g.
  assert (H : existsb is_print shown = true) by reflexivity.
  split; [exact H|].
  exact (proj2 (proj2 (proj2 (screen_matches_connection Drivers.toFahrenheit Drivers.DEVICE_DISCONNECTED_C Drivers.String_ Example.first_cycle))) H).
Defined.

Lemma disconnected_quiet_witness :
  let g := run Drivers.toFahrenheit Drivers.DEVICE_DISCONNECTED_C Drivers.String_ [mkTick 0 Drivers.DEVICE_DISCONNECTED_C; mkTick 750 Drivers.DEVICE_DISCONNECTED_C] boot in
  sensorConnected g = false
  /\ Forall (fun tk => valid Drivers.DEVICE_DISCONNECTED_C (tick_reading tk) = false) Example.still_unplugged
  /\ Forall (fun e => existsb is_tft (e_calls e) = false)
            (log Drivers.toFahrenheit Drivers.DEVICE_DISCONNECTED_C Drivers.String_ Example.still_unplugged g)
  /\ sensorConnected (run Drivers.toFahrenheit Drivers.DEVICE_DISCONNECTED_C Drivers.String_ Example.still_unplugged g) = false.
Proof.
  intros g.
  assert (Hg : sensorConnected g = false) by reflexivity.
  assert (Hv : Forall (fun tk => valid Drivers.DEVICE_DISCONNECTED_C (tick_reading tk) = false)
                      Example.still_unplugged)
    by (repeat constructor).
  split; [exact Hg|]. split; [exact Hv|].
  exact (disconnected_quiet Drivers.toFahrenheit Drivers.DEVICE_DISCONNECTED_C Drivers.String_ Example.still_unplugged g Hg Hv).
Defined.

Lemma time_modulo_rollover_witness :
  currentState Example.waiting = WAIT
  /\ previousMillis Example.waiting = millis 0
  /\ loop Drivers.toFahrenheit Drivers.DEVICE_DISCONNECTED_C Drivers.String_ (0 + 2 ^ 32) Example.c_22 Example.waiting
     = (tt, Example.waiting, []).
Proof.
  assert (E : currentState Example.waiting = WAIT) by reflexivity.
  assert (P : previousMillis Example.waiting = millis 0) by reflexivity.
  split; [exact E|]. split; [exact P|].
  exact (proj2 (time_modulo_rollover Drivers.toFahrenheit Drivers.DEVICE_DISCONNECTED_C Drivers.String_ Example.waiting 0 0 Example.c_22) E P).
Defined.

(** X13: on the sensor's 12-bit grid, for values from -55 to 125 degrees, a
    reading one step (1/16 degree) above or below the reference value is
    not a change, and a reading two steps (1/8 degree) above or below it is
    one. *)
Theorem grid_steps (n : Z) :
  -880 <= n <= 1998 ->
  let c i := F32.ldexp (n + i) (-4) in
  changed (c 1) (c 0) = false /\ changed (c 0) (c 1) = false
  /\ changed (c 2) (c 0) = true /\ changed (c 0) (c 2) = true.
Proof.
  intros Hn c. subst c.
  pose proof changed_on_grid as H. rewrite forallb_forall in H.
  specialize (H (Z.to_nat (n + 880))). cbv zeta in H.
  replace (Z.of_nat (Z.to_nat (n + 880)) - 880) with n in H by lia.
  assert (Hin : In (Z.to_nat (n + 880)) (seq 0 2879)) by (apply in_seq; lia).
  specialize (H Hin).
  repeat (apply andb_prop in H; destruct H as [H ?]).
  repeat match goal with
         | K : negb _ = true |- _ => apply negb_true_iff in K
         end.
  repeat split; assumption.
Qed.

Lemma grid_steps_witness :
  -880 <= 352 <= 1998
  /\ changed (F32.ldexp (352 + 1) (-4)) (F32.ldexp (352 + 0) (-4)) = false
  /\ changed (F32.ldexp (352 + 0) (-4)) (F32.ldexp (352 + 1) (-4)) = false
  /\ changed (F32.ldexp (352 + 2) (-4)) (F32.ldexp (352 + 0) (-4)) = true
  /\ changed (F32.ldexp (352 + 0) (-4)) (F32.ldexp (352 + 2) (-4)) = true.
Proof.
  assert (Hn : -880 <= 352 <= 1998) by (split; discriminate).
  split; [exact Hn|]. exact (grid_steps 352 Hn).
Defined.
